(** * Bitcoin Well to Koinly converter: the conversion core

    A shallow embedding of the conversion core of [app.tsx] (the current
    version, with the Mountain Time to UTC conversion and the swap filter):

    - [convertMountainTimeToUTC]  the Time Normalizer,
    - [filteredData]              the Batch Filter,
    - [convertRow]                the Row Classifier and Mapper,
    - [generateKoinlyCsv]         the CSV Serializer,

    together with the parts of the JavaScript run time these functions call
    (string methods, [Array.prototype.join], the [Date] constructor and its
    UTC getters), which are modelled after the ECMAScript standard.

    Conventions of the model.
    - A JavaScript string is a Rocq [string]; [toLowerCase] acts on the ASCII
      letters (the keywords the program looks for, buy, sell and swap, are
      ASCII, and no non-ASCII character lower-cases to one of their letters).
    - A property that is missing from an object reads as [undefined]; objects
      are finite maps from property names to values.
    - An operation that raises an exception returns [Throw].
    - What [Date] makes of a string outside the date-time format of the
      standard is left to the engine: [convertMountainTimeToUTC_with] takes
      the constructor as a parameter, for the properties that must hold on
      every host.
    - The rows of the conversion core hold strings and [undefined]. The
      serializer on rows that hold anything else (numbers, symbols, objects)
      is in [AnyValue]. *)

From Stdlib Require Import ZArith Lia Ascii String List Bool DecimalString.
From stdpp Require Import gmap strings list fin_maps.

Open Scope string_scope.
Open Scope list_scope.

(** ** JavaScript values and exceptions *)

(** Numbers. The numbers the program computes are the fields of a date,
    which are small integers, and [NaN] for an invalid date: [Int z] stands
    for the number [z], and is printed as JavaScript prints an integer
    below 2^53 in magnitude, in plain decimal digits. *)
Inductive number : Type :=
  | NaN
  | Int (z : Z).

Inductive jsval : Type :=
  | VUndefined
  | VNull
  | VBool (b : bool)
  | VNum (n : number)
  | VStr (s : string).

Inductive js_error : Type :=
  | TypeError.

Inductive result (A : Type) : Type :=
  | Ok (a : A)
  | Throw (e : js_error).

Arguments Ok {A} a.
Arguments Throw {A} e.

Definition bind {A B : Type} (r : result A) (k : A -> result B) : result B :=
  match r with
  | Ok a => k a
  | Throw e => Throw e
  end.

Notation "'attempt' x <- r 'in' k" := (bind r (fun x => k))
  (at level 10, x name, r at level 100, k at level 200).

(** [xs.map(f)] and [xs.filter(p)] with a callback that may throw: the first
    exception aborts the traversal. *)
Fixpoint mapM {A B : Type} (f : A -> result B) (xs : list A) : result (list B) :=
  match xs with
  | [] => Ok []
  | x :: xs' =>
      attempt y <- f x in
      attempt ys <- mapM f xs' in
      Ok (y :: ys)
  end.

Fixpoint filterM {A : Type} (p : A -> result bool) (xs : list A) : result (list A) :=
  match xs with
  | [] => Ok []
  | x :: xs' =>
      attempt b <- p x in
      attempt ys <- filterM p xs' in
      Ok (if b then x :: ys else ys)
  end.

(** An object: property names to values. Reading a missing property gives
    [undefined]. *)
Abbreviation jsobject := (gmap string jsval).

Definition get_prop (o : jsobject) (k : string) : jsval :=
  match o !! k with
  | Some v => v
  | None => VUndefined
  end.

(** A parsed input row ([BitcoinWellRow]): the CSV reader delivers every
    field it finds as a string, under the name of its column; a column the
    file does not have is a missing property. *)
Abbreviation SourceRow := (gmap string string).

Definition row_get (row : SourceRow) (k : string) : jsval :=
  match row !! k with
  | Some s => VStr s
  | None => VUndefined
  end.

(** ** Strings *)

Definition is_upper (c : ascii) : bool :=
  let n := nat_of_ascii c in (65 <=? n)%nat && (n <=? 90)%nat.

Definition lower_ascii (c : ascii) : ascii :=
  if is_upper c then ascii_of_nat (nat_of_ascii c + 32) else c.

(** [s.toLowerCase()] *)
Fixpoint toLowerCase (s : string) : string :=
  match s with
  | EmptyString => EmptyString
  | String c s' => String (lower_ascii c) (toLowerCase s')
  end.

(** [s.includes(sub)]: [sub] occurs in [s] at some position. *)
Fixpoint includes (s sub : string) : bool :=
  String.prefix sub s ||
  match s with
  | EmptyString => false
  | String _ s' => includes s' sub
  end.

Fixpoint drop_chars (n : nat) (s : string) : string :=
  match n, s with
  | O, _ => s
  | S n', String _ s' => drop_chars n' s'
  | S _, EmptyString => EmptyString
  end.

(** [s.replace(pat, by)] with a string pattern: only the first occurrence is
    replaced. *)
Fixpoint replace (s pat by_ : string) : string :=
  if String.prefix pat s then by_ +:+ drop_chars (String.length pat) s
  else match s with
       | EmptyString => EmptyString
       | String c s' => String c (replace s' pat by_)
       end.

(** [s.replace(/c/g, by)] for a one-character regular expression: every
    occurrence is replaced. *)
Fixpoint replace_global (s : string) (c : ascii) (by_ : string) : string :=
  match s with
  | EmptyString => EmptyString
  | String a s' =>
      if Ascii.eqb a c then by_ +:+ replace_global s' c by_
      else String a (replace_global s' c by_)
  end.

Fixpoint repeat_fill (fill cur : string) (n : nat) : string :=
  match n with
  | O => EmptyString
  | S n' =>
      match cur with
      | EmptyString =>
          match fill with
          | EmptyString => EmptyString
          | String c rest => String c (repeat_fill fill rest n')
          end
      | String c rest => String c (repeat_fill fill rest n')
      end
  end.

(** [s.padStart(target, fill)] *)
Definition padStart (s : string) (target : nat) (fill : string) : string :=
  if (target <=? String.length s)%nat then s
  else match fill with
       | EmptyString => s
       | _ => repeat_fill fill fill (target - String.length s) +:+ s
       end.

(** Number to string, [ToString] of the standard on integers and [NaN]. *)
Definition Z_toString (z : Z) : string :=
  NilZero.string_of_int (Z.to_int z).

Definition number_toString (n : number) : string :=
  match n with
  | NaN => "NaN"
  | Int z => Z_toString z
  end.

Definition number_add (a b : number) : number :=
  match a, b with
  | Int x, Int y => Int (x + y)
  | _, _ => NaN
  end.

(** [ToString] on a value, as template literals and [join] apply it. *)
Definition ToString (v : jsval) : string :=
  match v with
  | VUndefined => "undefined"
  | VNull => "null"
  | VBool true => "true"
  | VBool false => "false"
  | VNum n => number_toString n
  | VStr s => s
  end.

(** [xs.join(sep)]: [undefined] and [null] elements give the empty string. *)
Definition join_item (v : jsval) : string :=
  match v with
  | VUndefined | VNull => ""
  | _ => ToString v
  end.

Fixpoint join (xs : list jsval) (sep : string) : string :=
  match xs with
  | [] => ""
  | [x] => join_item x
  | x :: xs' => join_item x +:+ sep +:+ join xs' sep
  end.

(** Truthiness of a value, as [&&], [||] and [? :] test it. *)
Definition truthy (v : jsval) : bool :=
  match v with
  | VUndefined | VNull => false
  | VBool b => b
  | VNum NaN => false
  | VNum (Int z) => negb (z =? 0)%Z
  | VStr s => negb (String.eqb s "")
  end.

(** [a || b] and [a ?? b] *)
Definition js_or (a b : jsval) : jsval := if truthy a then a else b.

Definition nullish (a b : jsval) : jsval :=
  match a with
  | VUndefined | VNull => b
  | _ => a
  end.

(** [a !== b] on the values the program compares (a field and a literal). *)
Definition strict_neq_str (a : jsval) (lit : string) : bool :=
  match a with
  | VStr s => negb (String.eqb s lit)
  | _ => true
  end.

(** ** Time values: the day and year arithmetic of the ECMAScript standard *)

Module DateModel.

Local Open Scope Z_scope.

Definition msPerDay : Z := 86400000.
Definition msPerHour : Z := 3600000.
Definition msPerMinute : Z := 60000.
Definition msPerSecond : Z := 1000.

Definition Day (t : Z) : Z := t / msPerDay.
Definition TimeWithinDay (t : Z) : Z := t mod msPerDay.

Definition isLeap (y : Z) : bool :=
  ((y mod 4 =? 0) && negb (y mod 100 =? 0)) || (y mod 400 =? 0).

Definition DaysInYear (y : Z) : Z := if isLeap y then 366 else 365.

Definition DayFromYear (y : Z) : Z :=
  365 * (y - 1970) + (y - 1969) / 4 - (y - 1901) / 100 + (y - 1601) / 400.

Definition TimeFromYear (y : Z) : Z := msPerDay * DayFromYear y.

(** [YearFromTime(t)] is the largest [y] with [TimeFromYear(y) <= t]. It is
    found by counting up from a year that is not after it. *)
Fixpoint year_search (fuel : nat) (y day : Z) : Z :=
  match fuel with
  | O => y
  | S fuel' =>
      if DayFromYear (y + 1) <=? day then year_search fuel' (y + 1) day else y
  end.

Definition YearFromDay (day : Z) : Z :=
  year_search (Z.to_nat (Z.abs day / 100000 + 4))
              (1969 + Z.min (day / 365) (day / 366)) day.

Definition YearFromTime (t : Z) : Z := YearFromDay (Day t).

Definition InLeapYear (t : Z) : Z := if isLeap (YearFromTime t) then 1 else 0.

Definition DayWithinYear (t : Z) : Z := Day t - DayFromYear (YearFromTime t).

(** Month number, 0 for January to 11 for December. *)
Definition MonthFromTime (t : Z) : Z :=
  let d := DayWithinYear t in
  let l := InLeapYear t in
  if d <? 31 then 0
  else if d <? 59 + l then 1
  else if d <? 90 + l then 2
  else if d <? 120 + l then 3
  else if d <? 151 + l then 4
  else if d <? 181 + l then 5
  else if d <? 212 + l then 6
  else if d <? 243 + l then 7
  else if d <? 273 + l then 8
  else if d <? 304 + l then 9
  else if d <? 334 + l then 10
  else 11.

(** Day of the month, 1 to 31. *)
Definition DateFromTime (t : Z) : Z :=
  let d := DayWithinYear t in
  let l := InLeapYear t in
  match MonthFromTime t with
  | 0 => d + 1
  | 1 => d - 30
  | 2 => d - 58 - l
  | 3 => d - 89 - l
  | 4 => d - 119 - l
  | 5 => d - 150 - l
  | 6 => d - 180 - l
  | 7 => d - 211 - l
  | 8 => d - 242 - l
  | 9 => d - 272 - l
  | 10 => d - 303 - l
  | _ => d - 333 - l
  end.

Definition HourFromTime (t : Z) : Z := (t / msPerHour) mod 24.
Definition MinFromTime (t : Z) : Z := (t / msPerMinute) mod 60.

Definition MakeTime (hour min sec ms : Z) : Z :=
  hour * msPerHour + min * msPerMinute + sec * msPerSecond + ms.

(** Days before the first of month [mn] (0 to 11) in a year. *)
Definition daysBeforeMonth (leap : bool) (mn : Z) : Z :=
  let l := if leap then 1 else 0 in
  match mn with
  | 0 => 0
  | 1 => 31
  | 2 => 59 + l
  | 3 => 90 + l
  | 4 => 120 + l
  | 5 => 151 + l
  | 6 => 181 + l
  | 7 => 212 + l
  | 8 => 243 + l
  | 9 => 273 + l
  | 10 => 304 + l
  | _ => 334 + l
  end.

(** [MakeDay(year, month, date)]: the day number of the first of the month,
    plus [date - 1]; a month outside 0..11 carries into the year. *)
Definition MakeDay (year month date : Z) : Z :=
  let ym := year + month / 12 in
  let mn := month mod 12 in
  DayFromYear ym + daysBeforeMonth (isLeap ym) mn + date - 1.

Definition MakeDate (day time : Z) : Z := day * msPerDay + time.

(** [TimeClip]: a time value further than 8.64e15 ms from the epoch is not a
    date. *)
Definition TimeClip (t : Z) : number :=
  if Z.abs t <=? 8640000000000000 then Int t else NaN.

End DateModel.

(** ** The [Date] constructor on a string, and the UTC getters *)

(** [Date.parse] reads the date-time format of the standard,
    [YYYY-MM-DDTHH:mm:ss.sssZ], with the parts the standard allows to be left
    out and with the offset written [Z] or [+HH:mm] / [-HH:mm]; the year may
    also be written with a sign and six digits. A string outside the format
    is unrecognised and gives [NaN] (the standard lets an engine try other
    formats of its own before giving up; the model takes none). A date-time
    that names no offset would be read in the time zone of the host: the
    program never builds one, since it always appends an offset, and the
    model leaves it unrecognised. *)
Module DateParse.

Import DateModel.
Local Open Scope Z_scope.

Definition digit_of (c : ascii) : option Z :=
  let n := nat_of_ascii c in
  if ((48 <=? n) && (n <=? 57))%nat then Some (Z.of_nat n - 48) else None.

Fixpoint read_digits (n : nat) (s : string) (acc : Z) : option (Z * string) :=
  match n with
  | O => Some (acc, s)
  | S n' =>
      match s with
      | String c s' =>
          match digit_of c with
          | Some d => read_digits n' s' (10 * acc + d)
          | None => None
          end
      | EmptyString => None
      end
  end.

Definition expect (c : ascii) (s : string) : option string :=
  match s with
  | String a s' => if Ascii.eqb a c then Some s' else None
  | EmptyString => None
  end.

Definition parse_year (s : string) : option (Z * string) :=
  match s with
  | String "+"%char s' => read_digits 6 s' 0
  | String "-"%char s' =>
      match read_digits 6 s' 0 with
      | Some (y, r) => if y =? 0 then None else Some (- y, r)
      | None => None
      end
  | _ => read_digits 4 s 0
  end.

(** The optional [-MM] and [-DD]; a part left out counts as 1. *)
Definition parse_month_day (s : string) : option (Z * Z * string) :=
  match s with
  | String "-"%char s1 =>
      match read_digits 2 s1 0 with
      | Some (m, String "-"%char s3) =>
          match read_digits 2 s3 0 with
          | Some (d, s4) => Some (m, d, s4)
          | None => None
          end
      | Some (m, s2) => Some (m, 1, s2)
      | None => None
      end
  | _ => Some (1, 1, s)
  end.

(** [HH:mm], then the optional [:ss] and [.sss]. *)
Definition parse_time (s : string) : option (Z * Z * Z * Z * string) :=
  match read_digits 2 s 0 with
  | Some (h, s1) =>
      match expect ":" s1 with
      | Some s2 =>
          match read_digits 2 s2 0 with
          | Some (mi, String ":"%char s4) =>
              match read_digits 2 s4 0 with
              | Some (sec, String "."%char s6) =>
                  match read_digits 3 s6 0 with
                  | Some (ms, s7) => Some (h, mi, sec, ms, s7)
                  | None => None
                  end
              | Some (sec, s5) => Some (h, mi, sec, 0, s5)
              | None => None
              end
          | Some (mi, s3) => Some (h, mi, 0, 0, s3)
          | None => None
          end
      | None => None
      end
  | None => None
  end.

(** The offset from UTC in minutes: [Z], or a sign and [HH:mm], up to the end
    of the string. *)
Definition parse_offset (s : string) : option Z :=
  match s with
  | String "Z"%char EmptyString => Some 0
  | String sign s1 =>
      if Ascii.eqb sign "+" || Ascii.eqb sign "-" then
        match read_digits 2 s1 0 with
        | Some (oh, s2) =>
            match expect ":" s2 with
            | Some s3 =>
                match read_digits 2 s3 0 with
                | Some (om, EmptyString) =>
                    if (oh <=? 23) && (om <=? 59) then
                      Some ((if Ascii.eqb sign "-" then -1 else 1) * (oh * 60 + om))
                    else None
                | _ => None
                end
            | None => None
            end
        | None => None
        end
      else None
  | EmptyString => None
  end.

Definition valid_date (m d : Z) : bool :=
  (1 <=? m) && (m <=? 12) && (1 <=? d) && (d <=? 31).

Definition valid_time (h mi sec ms : Z) : bool :=
  ((h <=? 23) && (mi <=? 59) && (sec <=? 59))
  || ((h =? 24) && (mi =? 0) && (sec =? 0) && (ms =? 0)).

Definition Date_parse (s : string) : number :=
  match parse_year s with
  | Some (y, s1) =>
      match parse_month_day s1 with
      | Some (m, d, s2) =>
          if valid_date m d then
            match s2 with
            | EmptyString => TimeClip (MakeDate (MakeDay y (m - 1) d) 0)
            | String "T"%char s3 =>
                match parse_time s3 with
                | Some (h, mi, sec, ms, s4) =>
                    match parse_offset s4 with
                    | Some off =>
                        if valid_time h mi sec ms then
                          TimeClip (MakeDate (MakeDay y (m - 1) d) (MakeTime h mi sec ms)
                                    - off * msPerMinute)
                        else NaN
                    | None => NaN
                    end
                | None => NaN
                end
            | _ => NaN
            end
          else NaN
      | None => NaN
      end
  | None => NaN
  end.

End DateParse.

(** A [Date] object is its time value. *)
Definition new_Date (s : string) : number := DateParse.Date_parse s.

Definition date_getter (f : Z -> Z) (date : number) : number :=
  match date with
  | NaN => NaN
  | Int t => Int (f t)
  end.

Definition getUTCFullYear : number -> number := date_getter DateModel.YearFromTime.
Definition getUTCMonth : number -> number := date_getter DateModel.MonthFromTime.
Definition getUTCDate : number -> number := date_getter DateModel.DateFromTime.
Definition getUTCHours : number -> number := date_getter DateModel.HourFromTime.
Definition getUTCMinutes : number -> number := date_getter DateModel.MinFromTime.

(** A string method called on a value: anything but a string has no such
    method (or no properties at all) and the call throws. *)
Definition on_string {A : Type} (v : jsval) (f : string -> A) : result A :=
  match v with
  | VStr s => Ok (f s)
  | _ => Throw TypeError
  end.

(** ** The Time Normalizer *)

Definition convertMountainTimeToUTC (dateStr : jsval) : result string :=
  attempt replaced <- on_string dateStr (fun s => replace s " " "T") in
  let isoDateStr := replaced +:+ "-07:00" in
  let date := new_Date isoDateStr in
  let year := getUTCFullYear date in
  let month := padStart (number_toString (number_add (getUTCMonth date) (Int 1))) 2 "0" in
  let day := padStart (number_toString (getUTCDate date)) 2 "0" in
  let hours := padStart (number_toString (getUTCHours date)) 2 "0" in
  let minutes := padStart (number_toString (getUTCMinutes date)) 2 "0" in
  Ok (number_toString year +:+ "-" +:+ month +:+ "-" +:+ day +:+ " "
      +:+ hours +:+ ":" +:+ minutes +:+ " UTC").

(** The same function on any host. The standard fixes what [Date] reads in
    its own date-time format; on every other string the engine may try
    formats of its own, so whether such a string gives a time value or an
    invalid date differs from engine to engine. Here the constructor is a
    parameter, [Date]: any function from strings to time values, [NaN] for an
    invalid date. [convertMountainTimeToUTC] is this function with the
    [new_Date] of the model. *)
Definition convertMountainTimeToUTC_with (Date : string -> number)
    (dateStr : jsval) : result string :=
  attempt replaced <- on_string dateStr (fun s => replace s " " "T") in
  let isoDateStr := replaced +:+ "-07:00" in
  let date := Date isoDateStr in
  let year := getUTCFullYear date in
  let month := padStart (number_toString (number_add (getUTCMonth date) (Int 1))) 2 "0" in
  let day := padStart (number_toString (getUTCDate date)) 2 "0" in
  let hours := padStart (number_toString (getUTCHours date)) 2 "0" in
  let minutes := padStart (number_toString (getUTCMinutes date)) 2 "0" in
  Ok (number_toString year +:+ "-" +:+ month +:+ "-" +:+ day +:+ " "
      +:+ hours +:+ ":" +:+ minutes +:+ " UTC").

(** ** The Batch Filter *)

(** [data.filter((row) => !row["Order Type"].toLowerCase().includes("swap"))] *)
Definition not_swap (row : SourceRow) : result bool :=
  attempt orderType <- on_string (row_get row "Order Type") toLowerCase in
  Ok (negb (includes orderType "swap")).

Definition filteredData (data : list SourceRow) : result (list SourceRow) :=
  filterM not_swap data.

(** ** The Row Classifier and Mapper *)

(** An object literal: the listed properties, in a fresh object. *)
Definition object_literal (props : list (string * jsval)) : jsobject :=
  list_to_map props.

Definition convertRow (row : SourceRow) : result jsobject :=
  attempt date <- convertMountainTimeToUTC (row_get row "Order Date") in
  attempt orderType <- on_string (row_get row "Order Type") toLowerCase in
  let txHash := js_or (row_get row "Transaction Hash") (VStr "") in
  let feeAmount :=
    if truthy (row_get row "Miner Fee") && strict_neq_str (row_get row "Miner Fee") "-"
    then row_get row "Miner Fee" else VStr "" in
  if includes orderType "buy" then
    Ok (object_literal
      [ ("Date", VStr date);
        ("Sent Amount",
          if truthy (row_get row "Fiat Amount")
             && strict_neq_str (row_get row "Fiat Amount") "-"
          then row_get row "Fiat Amount" else VStr "");
        ("Sent Currency", js_or (row_get row "Fiat Code") (VStr ""));
        ("Received Amount", row_get row "Crypto Amount");
        ("Received Currency", row_get row "Crypto Code");
        ("Fee Amount", feeAmount);
        ("Fee Currency", js_or (row_get row "Crypto Code") (VStr ""));
        ("Net Worth Amount", VStr "");
        ("Net Worth Currency", VStr "");
        ("Label", VStr "Buy");
        ("Description", VStr "");
        ("TxHash", txHash) ])
  else if includes orderType "sell" then
    Ok (object_literal
      [ ("Date", VStr date);
        ("Sent Amount", row_get row "Crypto Amount");
        ("Sent Currency", row_get row "Crypto Code");
        ("Received Amount",
          if truthy (row_get row "Fiat Amount")
             && strict_neq_str (row_get row "Fiat Amount") "-"
          then row_get row "Fiat Amount" else VStr "");
        ("Received Currency", js_or (row_get row "Fiat Code") (VStr ""));
        ("Fee Amount", feeAmount);
        ("Fee Currency", js_or (row_get row "Crypto Code") (VStr ""));
        ("Net Worth Amount", VStr "");
        ("Net Worth Currency", VStr "");
        ("Label", VStr "Sell");
        ("Description", VStr "");
        ("TxHash", txHash) ])
  else
    Ok (object_literal
      [ ("Date", VStr date);
        ("Sent Amount",
          if truthy (row_get row "Fiat Amount")
             && strict_neq_str (row_get row "Fiat Amount") "-"
          then row_get row "Fiat Amount" else VStr "");
        ("Sent Currency", js_or (row_get row "Fiat Code") (VStr ""));
        ("Received Amount", row_get row "Crypto Amount");
        ("Received Currency", row_get row "Crypto Code");
        ("Fee Amount", feeAmount);
        ("Fee Currency", js_or (row_get row "Crypto Code") (VStr ""));
        ("Net Worth Amount", VStr "");
        ("Net Worth Currency", VStr "");
        ("Label", row_get row "Order Type");
        ("Description", VStr "");
        ("TxHash", txHash) ]).

(** *** The mapper before the time conversion

    The earlier [app.tsx] has the same filter and the same serializer, and a
    mapper that copies the order date as it is. *)
Module Earlier.

Definition convertRow (row : SourceRow) : result jsobject :=
  attempt orderType <- on_string (row_get row "Order Type") toLowerCase in
  let date := row_get row "Order Date" in
  let txHash := js_or (row_get row "Transaction Hash") (VStr "") in
  let feeAmount :=
    if truthy (row_get row "Miner Fee") && strict_neq_str (row_get row "Miner Fee") "-"
    then row_get row "Miner Fee" else VStr "" in
  if includes orderType "buy" then
    Ok (object_literal
      [ ("Date", date);
        ("Sent Amount",
          if truthy (row_get row "Fiat Amount")
             && strict_neq_str (row_get row "Fiat Amount") "-"
          then row_get row "Fiat Amount" else VStr "");
        ("Sent Currency", js_or (row_get row "Fiat Code") (VStr ""));
        ("Received Amount", row_get row "Crypto Amount");
        ("Received Currency", row_get row "Crypto Code");
        ("Fee Amount", feeAmount);
        ("Fee Currency", js_or (row_get row "Crypto Code") (VStr ""));
        ("Net Worth Amount", VStr "");
        ("Net Worth Currency", VStr "");
        ("Label", VStr "Buy");
        ("Description", VStr "");
        ("TxHash", txHash) ])
  else if includes orderType "sell" then
    Ok (object_literal
      [ ("Date", date);
        ("Sent Amount", row_get row "Crypto Amount");
        ("Sent Currency", row_get row "Crypto Code");
        ("Received Amount",
          if truthy (row_get row "Fiat Amount")
             && strict_neq_str (row_get row "Fiat Amount") "-"
          then row_get row "Fiat Amount" else VStr "");
        ("Received Currency", js_or (row_get row "Fiat Code") (VStr ""));
        ("Fee Amount", feeAmount);
        ("Fee Currency", js_or (row_get row "Crypto Code") (VStr ""));
        ("Net Worth Amount", VStr "");
        ("Net Worth Currency", VStr "");
        ("Label", VStr "Sell");
        ("Description", VStr "");
        ("TxHash", txHash) ])
  else
    Ok (object_literal
      [ ("Date", date);
        ("Sent Amount",
          if truthy (row_get row "Fiat Amount")
             && strict_neq_str (row_get row "Fiat Amount") "-"
          then row_get row "Fiat Amount" else VStr "");
        ("Sent Currency", js_or (row_get row "Fiat Code") (VStr ""));
        ("Received Amount", row_get row "Crypto Amount");
        ("Received Currency", row_get row "Crypto Code");
        ("Fee Amount", feeAmount);
        ("Fee Currency", js_or (row_get row "Crypto Code") (VStr ""));
        ("Net Worth Amount", VStr "");
        ("Net Worth Currency", VStr "");
        ("Label", row_get row "Order Type");
        ("Description", VStr "");
        ("TxHash", txHash) ]).

End Earlier.

(** ** The CSV Serializer *)

Definition dquote : ascii := "034"%char.
Definition newline : string := String "010"%char EmptyString.
Definition quote_str : string := String dquote EmptyString.

Definition headers : list string :=
  [ "Date"; "Sent Amount"; "Sent Currency"; "Received Amount";
    "Received Currency"; "Fee Amount"; "Fee Currency"; "Net Worth Amount";
    "Net Worth Currency"; "Label"; "Description"; "TxHash" ].

(** The callback of [headers.map]: the value of one column of one row. *)
Definition cell (row : jsobject) (header : string) : jsval :=
  let value := nullish (get_prop row header) (VStr "") in
  match value with
  | VStr s =>
      if includes s "," || includes s quote_str
      then VStr (quote_str +:+ replace_global s dquote (quote_str +:+ quote_str)
                 +:+ quote_str)
      else value
  | _ => value
  end.

Definition rowValues (row : jsobject) : list jsval := map (cell row) headers.

(** [rows.forEach] pushes one joined line per row onto [csvRows], which
    starts with the header line. *)
Definition generateKoinlyCsv (rows : list jsobject) : string :=
  let csvRows := [VStr (join (map VStr headers) ",")] in
  let csvRows :=
    fold_left (fun acc row => acc ++ [VStr (join (rowValues row) ",")]) rows csvRows in
  join csvRows newline.

(** The conversion as [handleFileUpload] chains it on the parsed rows:
    [data.filter(...).map(convertRow)], then the serializer. *)
Definition convertedRows (data : list SourceRow) : result (list jsobject) :=
  attempt filtered <- filteredData data in
  mapM convertRow filtered.

Definition convert (data : list SourceRow) : result string :=
  attempt rows <- convertedRows data in
  Ok (generateKoinlyCsv rows).

(** ** The CSV Serializer on values of any kind

    [generateKoinlyCsv] is typed for rows of strings, but it reads its rows
    through [(row as any)[header]], and at run time a property can hold any
    value. The serializer observes three things of a value: whether it is
    [undefined] or [null] (the [??]), whether it is a string (the [typeof]),
    and what [join] makes of it, which is its conversion to a string. So a
    number (or a bigint) stands here with the text of its conversion, and an
    object or an array with the outcome of its conversion, which runs its own
    [toString]: a text, or the exception that it throws. A symbol has no
    conversion to a string: [join] throws a [TypeError] on it. A row is an
    object with data properties. *)

Module AnyValue.

Inductive value : Type :=
  | Undefined
  | Null
  | Boolean (b : bool)
  | Number (text : string)
  | Text (s : string)
  | Symbol
  | Object (text : result string).

Abbreviation object := (gmap string value).

Definition get_prop (o : object) (k : string) : value :=
  match o !! k with
  | Some v => v
  | None => Undefined
  end.

(** [a ?? b] *)
Definition nullish (a b : value) : value :=
  match a with
  | Undefined | Null => b
  | _ => a
  end.

(** The conversion to a string that [join] applies to an element; it takes
    [undefined] and [null] as the empty string. *)
Definition join_item (v : value) : result string :=
  match v with
  | Undefined | Null => Ok ""
  | Boolean true => Ok "true"
  | Boolean false => Ok "false"
  | Number text => Ok text
  | Text s => Ok s
  | Symbol => Throw TypeError
  | Object text => text
  end.

(** [xs.join(sep)]: the elements are converted from left to right, and the
    first exception ends the call. *)
Fixpoint join (xs : list value) (sep : string) : result string :=
  match xs with
  | [] => Ok ""
  | [x] => join_item x
  | x :: xs' =>
      attempt first <- join_item x in
      attempt rest <- join xs' sep in
      Ok (first +:+ sep +:+ rest)
  end.

(** The callback of [headers.map]. *)
Definition cell (row : object) (header : string) : value :=
  let value := nullish (get_prop row header) (Text "") in
  match value with
  | Text s =>
      if includes s "," || includes s quote_str
      then Text (quote_str +:+ replace_global s dquote (quote_str +:+ quote_str)
                 +:+ quote_str)
      else value
  | _ => value
  end.

Definition rowValues (row : object) : list value := map (cell row) headers.

(** The callback of [rows.forEach], row after row: the joined line of the
    row is pushed onto [csvRows]. *)
Fixpoint forEach_push (rows : list object) (csvRows : list value)
    : result (list value) :=
  match rows with
  | [] => Ok csvRows
  | row :: rest =>
      attempt line <- join (rowValues row) "," in
      forEach_push rest (csvRows ++ [Text line])
  end.

Definition generateKoinlyCsv (rows : list object) : result string :=
  attempt headerLine <- join (map Text headers) "," in
  attempt csvRows <- forEach_push rows [Text headerLine] in
  join csvRows newline.

(** A value of the conversion core, seen as the serializer sees it. *)
Definition of_jsval (v : jsval) : value :=
  match v with
  | VUndefined => Undefined
  | VNull => Null
  | VBool b => Boolean b
  | VNum n => Number (number_toString n)
  | VStr s => Text s
  end.

Definition of_jsobject (row : jsobject) : object := of_jsval <$> row.

End AnyValue.

(** ** The upload handler *)

Module Upload.








End Upload.

(** * The vocabulary of the claims *)

(** ** Rows and fields *)

(** The example row of the specification: a purchase of 0.0021 BTC for
    100.00 CAD, without miner fee. *)
Definition sample_row : SourceRow :=
  list_to_map
    [ ("Order Type", "Buy"); ("Order Date", "2024-01-15 10:00:00");
      ("Fiat Amount", "100.00"); ("Fiat Code", "CAD");
      ("Crypto Amount", "0.0021"); ("Crypto Code", "BTC");
      ("Miner Fee", "-"); ("Transaction Hash", "abc123") ].

(** The same purchase as a sale, and as a swap. *)
Definition sell_row : SourceRow := <["Order Type" := "Sell"]> sample_row.

Definition swap_row : SourceRow := <["Order Type" := "Swap BTC/ETH"]> sample_row.

(** A row of another order type. *)
Definition other_row : SourceRow := <["Order Type" := "Transfer"]> sample_row.

(** What [(v && v !== "-") ? v : ""] leaves of a field of an input row. *)
Definition amount_text (field : option string) : string :=
  match field with
  | Some a => if String.eqb a "-" then "" else a
  | None => ""
  end.

(** What [v || ""] leaves of a field of an input row. *)
Definition text_or_empty (field : option string) : string :=
  match field with
  | Some a => a
  | None => ""
  end.

(** A swap row: the order type, lower-cased, contains "swap". *)
Definition is_swap (row : SourceRow) : bool :=
  match row !! "Order Type" with
  | Some orderType => includes (toLowerCase orderType) "swap"
  | None => false
  end.

Definition has_order_type (row : SourceRow) : Prop :=
  is_Some (row !! "Order Type").

(** The rows the mapper sees: those that are not swap rows, in order. *)
Definition kept_rows (data : list SourceRow) : list SourceRow :=
  List.filter (fun row => negb (is_swap row)) data.

(** The label the mapper gives, by the order type. *)
Definition label_of (orderType : string) : string :=
  if includes (toLowerCase orderType) "buy" then "Buy"
  else if includes (toLowerCase orderType) "sell" then "Sell"
  else orderType.

(** ** Cells and lines *)

Definition contains_char (s : string) (c : ascii) : Prop :=
  In c (list_ascii_of_string s).

Definition needs_quotes (s : string) : Prop :=
  contains_char s "," \/ contains_char s dquote.

(** The quoted form of a field, in the words of the CSV rule: an opening
    quote, the text with every double quote written twice, a closing quote. *)
Definition double_quote (c : ascii) : list ascii :=
  if Ascii.eqb c dquote then [dquote; dquote] else [c].

Definition quoted_form (s : string) : string :=
  string_of_list_ascii
    (dquote :: flat_map double_quote (list_ascii_of_string s) ++ [dquote]).

Definition tom_bones : string :=
  "Tom, " +:+ quote_str +:+ "Bones" +:+ quote_str.

Definition tom_bones_quoted : string :=
  quote_str +:+ "Tom, " +:+ quote_str +:+ quote_str +:+ "Bones"
  +:+ quote_str +:+ quote_str +:+ quote_str.

Definition header_line : string :=
  "Date,Sent Amount,Sent Currency,Received Amount,Received Currency,Fee Amount,Fee Currency,Net Worth Amount,Net Worth Currency,Label,Description,TxHash".

(** The line of one record: its twelve cells, joined by commas. *)
Definition row_line (row : jsobject) : string := join (rowValues row) ",".

(** The lines of a text, as a reader that splits at every line feed sees
    them. *)
Fixpoint lines_of (s : string) : list string :=
  match s with
  | EmptyString => [EmptyString]
  | String c s' =>
      if Ascii.eqb c "010" then EmptyString :: lines_of s'
      else match lines_of s' with
           | l :: ls => String c l :: ls
           | [] => [String c EmptyString]
           end
  end.

(** The line the serializer writes for the record of a row. *)
Definition converted_line (row : SourceRow) : result string :=
  attempt target <- convertRow row in Ok (row_line target).

(** ** The calendar *)

Module Calendar.

Import DateModel.
Local Open Scope Z_scope.

(** The calendar, in the words of the claim: the length of a month, the day
    after a date, and a wall-clock time seven hours later. Months count from
    1. *)
Definition days_in_month (y m : Z) : Z :=
  match m with
  | 2 => if isLeap y then 29 else 28
  | 4 | 6 | 9 | 11 => 30
  | _ => 31
  end.

Definition next_day (y m d : Z) : Z * Z * Z :=
  if d <? days_in_month y m then (y, m, d + 1)
  else if m <? 12 then (y, m + 1, 1)
  else (y + 1, 1, 1).

Definition add_seven_hours (y m d h : Z) : Z * Z * Z * Z :=
  if h + 7 <? 24 then (y, m, d, h + 7)
  else let '(y', m', d') := next_day y m d in (y', m', d', h + 7 - 24).

Definition valid_day (y m d : Z) : Prop :=
  1 <= m <= 12 /\ 1 <= d <= days_in_month y m.

End Calendar.

(** ** Timestamps *)

(** A timestamp as the input file writes it, [YYYY-MM-DD HH:mm:ss], and the
    text the claim expects back, from the numbers they stand for. *)
Definition digit_char (d : Z) : ascii := ascii_of_nat (48 + Z.to_nat d).

Definition two_digits (n : Z) : string :=
  String (digit_char (n / 10)) (String (digit_char (n mod 10)) EmptyString).

Definition four_digits (n : Z) : string :=
  two_digits (n / 100) +:+ two_digits (n mod 100).

Definition timestamp (y m d h mi s : Z) : string :=
  four_digits y +:+ "-" +:+ two_digits m +:+ "-" +:+ two_digits d +:+ " "
  +:+ two_digits h +:+ ":" +:+ two_digits mi +:+ ":" +:+ two_digits s.

(** [YYYY-MM-DD HH:mm UTC] with a year of four digits. *)
Definition utc_text (y m d h mi : Z) : string :=
  four_digits y +:+ "-" +:+ two_digits m +:+ "-" +:+ two_digits d +:+ " "
  +:+ two_digits h +:+ ":" +:+ two_digits mi +:+ " UTC".

(** The same with the year as [ToString] writes a number: no padding. *)
Definition utc_text_plain_year (y m d h mi : Z) : string :=
  Z_toString y +:+ "-" +:+ two_digits m +:+ "-" +:+ two_digits d +:+ " "
  +:+ two_digits h +:+ ":" +:+ two_digits mi +:+ " UTC".

Definition iso_text (y m d h mi s : Z) : string :=
  four_digits y +:+ String "-" (two_digits m +:+ String "-" (two_digits d
  +:+ String "T" (two_digits h +:+ String ":" (two_digits mi
  +:+ String ":" (two_digits s +:+ "-07:00"))))).

(** The shape [YYYY-MM-DD HH:mm:ss]: in [shape], a [d] stands for any digit,
    every other character for itself. *)
Definition is_digit (c : ascii) : bool :=
  match DateParse.digit_of c with
  | Some _ => true
  | None => false
  end.

Fixpoint matches_shape (shape s : string) : bool :=
  match shape, s with
  | EmptyString, EmptyString => true
  | String p shape', String c s' =>
      (if Ascii.eqb p "d" then is_digit c else Ascii.eqb p c)
      && matches_shape shape' s'
  | _, _ => false
  end.

Definition is_timestamp_shape (s : string) : bool :=
  matches_shape "dddd-dd-dd dd:dd:dd" s.

(** The integers from 0 up to, and without, [n]. *)
Definition upto (n : Z) : list Z := map Z.of_nat (seq 0 (Z.to_nat n)).

(** ** Reading a line back *)

(** The text of a field before quoting: what [join] makes of the value
    that [?? ""] leaves. *)
Definition cell_text (row : jsobject) (header : string) : string :=
  join_item (nullish (get_prop row header) (VStr "")).

(** The text a field is written as. *)
Definition written_form (t : string) : string :=
  if includes t "," || includes t quote_str then quoted_form t else t.

(** A reader of one CSV record, after RFC 4180: fields end at a comma
    outside quotes; a field that opens with a quote runs to the next quote
    that is not doubled, and a doubled quote in it stands for one. *)
Inductive reader_state : Type :=
  | FieldStart
  | InRaw
  | InQuoted
  | QuoteSeen.

Definition push_char (c : ascii) (fields : list string) : list string :=
  match fields with
  | f :: fs => String c f :: fs
  | [] => [String c EmptyString]
  end.

Fixpoint read_record (st : reader_state) (s : string) : list string :=
  match s with
  | EmptyString => [EmptyString]
  | String c s' =>
      match st with
      | FieldStart =>
          if Ascii.eqb c dquote then read_record InQuoted s'
          else if Ascii.eqb c "," then EmptyString :: read_record FieldStart s'
          else push_char c (read_record InRaw s')
      | InRaw =>
          if Ascii.eqb c "," then EmptyString :: read_record FieldStart s'
          else push_char c (read_record InRaw s')
      | InQuoted =>
          if Ascii.eqb c dquote then read_record QuoteSeen s'
          else push_char c (read_record InQuoted s')
      | QuoteSeen =>
          if Ascii.eqb c dquote then push_char dquote (read_record InQuoted s')
          else if Ascii.eqb c "," then EmptyString :: read_record FieldStart s'
          else push_char c (read_record InRaw s')
      end
  end.

(** A field put in front of the first of the fields read after it. *)
Definition prepend (s : string) (fields : list string) : list string :=
  match fields with
  | f :: fs => (s +:+ f) :: fs
  | [] => [s]
  end.

(** What follows a field: the end of the line, or a comma and more. *)
Definition field_end (tail : string) : Prop :=
  tail = "" \/ exists more, tail = String "," more.

(** ** A host with a format of its own *)

(** A [Date] that, besides the format of the standard, reads one text with
    the month in letters, as the instant it names at seven hours behind UTC:
    15 January 2024, 17:00 UTC. The text is the one the Time Normalizer
    builds from [Jan 15 2024 10:00:00]. *)
Definition letter_month_Date (s : string) : number :=
  if String.eqb s "JanT15 2024 10:00:00-07:00" then Int 1705338000000
  else new_Date s.

(** ** Rows of values of any kind *)

(** The text of a field before quoting, or the exception that the
    conversion of its value throws. *)
Definition value_text (row : AnyValue.object) (header : string) : result string :=
  AnyValue.join_item
    (AnyValue.nullish (AnyValue.get_prop row header) (AnyValue.Text "")).

(** The line of a row, or the exception that ends [join]. *)
Definition any_row_line (row : AnyValue.object) : result string :=
  AnyValue.join (AnyValue.rowValues row) ",".

(** The plain values: [undefined], [null], booleans, strings and numbers.
    The text of a number is made of digits, a sign, a point, an exponent or
    the letters of NaN and Infinity: it holds no comma and no double quote. *)
Definition plain_value (v : AnyValue.value) : Prop :=
  match v with
  | AnyValue.Symbol | AnyValue.Object _ => False
  | AnyValue.Number text => ~ needs_quotes text
  | _ => True
  end.

(** A row whose twelve columns hold plain values; a missing key reads as
    [undefined], and the other keys of the row may hold anything. *)
Definition plain_row (row : AnyValue.object) : Prop :=
  forall header, In header headers -> plain_value (AnyValue.get_prop row header).




Definition mixed_row : AnyValue.object :=
  {[ "Date" := AnyValue.Text "2024-01-15 17:00 UTC";
     "Sent Amount" := AnyValue.Number "1e+21";
     "Sent Currency" := AnyValue.Null;
     "Label" := AnyValue.Boolean true;
     "Description" := AnyValue.Text tom_bones;
     "Memo" := AnyValue.Symbol ]}.

(** * Properties *)

(** ** Helper lemmas *)

#[local] Arguments String.append !s1 s2 : simpl nomatch.

Lemma convertMountainTimeToUTC_string (s : string) :
  exists out, convertMountainTimeToUTC (VStr s) = Ok out.
Proof. eexists. reflexivity. Qed.

Lemma row_get_Some (row : SourceRow) (k s : string) :
  row !! k = Some s -> row_get row k = VStr s.
Proof. intros H. unfold row_get. now rewrite H. Qed.

Lemma guarded_amount (row : SourceRow) (k : string) :
  (if truthy (row_get row k) && strict_neq_str (row_get row k) "-"
   then row_get row k else VStr "") = VStr (amount_text (row !! k)).
Proof.
  unfold row_get, amount_text.
  destruct (row !! k) as [a|]; [|reflexivity].
  simpl. destruct a as [|c a]; [reflexivity|].
  simpl. destruct (Ascii.eqb c "-"); [destruct a|]; reflexivity.
Qed.

Lemma or_empty (row : SourceRow) (k : string) :
  js_or (row_get row k) (VStr "") = VStr (text_or_empty (row !! k)).
Proof.
  unfold row_get, text_or_empty, js_or.
  destruct (row !! k) as [a|]; [|reflexivity].
  destruct a; reflexivity.
Qed.

Lemma on_string_field (row : SourceRow) (k s : string) (A : Type) (f : string -> A) :
  row !! k = Some s -> on_string (row_get row k) f = Ok (f s).
Proof. intros H. now rewrite (row_get_Some _ _ _ H). Qed.

(** After the two calls that can throw, [convertRow] is a three-way choice
    between object literals. *)
Ltac open_convertRow Htype Hdate date Hd :=
  match type of Hdate with
  | _ !! _ = Some ?orderDate =>
      destruct (convertMountainTimeToUTC_string orderDate) as [date Hd]
  end;
  unfold convertRow;
  rewrite (row_get_Some _ _ _ Htype), (row_get_Some _ _ _ Hdate), Hd;
  cbn [bind on_string];
  rewrite ?guarded_amount, ?or_empty.

Ltac exists_ok label :=
  eexists; exists label; split; [reflexivity|];
  repeat split; try reflexivity; tauto.

(** ** The Row Classifier and Mapper *)

Section Mapper.

Variable row : SourceRow.
Variables orderType orderDate : string.
Hypothesis Htype : row !! "Order Type" = Some orderType.
Hypothesis Hdate : row !! "Order Date" = Some orderDate.

(** C1. A row whose order type, lower-cased, contains "buy" is mapped to a
    record labelled "Buy" that receives the crypto amount and currency and
    sends the fiat currency and amount; the amount sent is empty when the
    fiat amount is absent or is the placeholder "-". The test for "buy" comes
    first, so nothing is asked about "sell". *)
Theorem convertRow_buy :
  includes (toLowerCase orderType) "buy" = true ->
  exists target,
    convertRow row = Ok target
    /\ get_prop target "Label" = VStr "Buy"
    /\ get_prop target "Received Amount" = row_get row "Crypto Amount"
    /\ get_prop target "Received Currency" = row_get row "Crypto Code"
    /\ get_prop target "Sent Currency" = VStr (text_or_empty (row !! "Fiat Code"))
    /\ get_prop target "Sent Amount" = VStr (amount_text (row !! "Fiat Amount")).
Proof.
  intros Hbuy.
  open_convertRow Htype Hdate date Hd.
  rewrite Hbuy.
  eexists. split; [reflexivity|].
  repeat split; reflexivity.
Qed.

(** C2. A row whose order type, lower-cased, contains "sell" and not "buy" is
    mapped to a record labelled "Sell" that sends the crypto amount and
    currency and receives the fiat currency and amount; the amount received
    is empty when the fiat amount is absent or is the placeholder "-". *)
Theorem convertRow_sell :
  includes (toLowerCase orderType) "sell" = true ->
  includes (toLowerCase orderType) "buy" = false ->
  exists target,
    convertRow row = Ok target
    /\ get_prop target "Label" = VStr "Sell"
    /\ get_prop target "Sent Amount" = row_get row "Crypto Amount"
    /\ get_prop target "Sent Currency" = row_get row "Crypto Code"
    /\ get_prop target "Received Currency" = VStr (text_or_empty (row !! "Fiat Code"))
    /\ get_prop target "Received Amount" = VStr (amount_text (row !! "Fiat Amount")).
Proof.
  intros Hsell Hbuy.
  open_convertRow Htype Hdate date Hd.
  rewrite Hbuy, Hsell.
  eexists. split; [reflexivity|].
  repeat split; reflexivity.
Qed.

(** X1. The third branch: any other order type keeps the Buy layout and is
    labelled with the order type as it was written. *)
Lemma convertRow_other :
  includes (toLowerCase orderType) "buy" = false ->
  includes (toLowerCase orderType) "sell" = false ->
  exists target,
    convertRow row = Ok target
    /\ get_prop target "Label" = VStr orderType
    /\ get_prop target "Received Amount" = row_get row "Crypto Amount"
    /\ get_prop target "Received Currency" = row_get row "Crypto Code"
    /\ get_prop target "Sent Currency" = VStr (text_or_empty (row !! "Fiat Code"))
    /\ get_prop target "Sent Amount" = VStr (amount_text (row !! "Fiat Amount")).
Proof.
  intros Hbuy Hsell.
  open_convertRow Htype Hdate date Hd.
  rewrite Hbuy, Hsell.
  eexists. split; [reflexivity|].
  repeat split; reflexivity.
Qed.

(** C6. Whatever the branch, the record carries the normalized order date,
    the miner fee (empty when absent or "-"), the crypto currency as fee
    currency, empty net worth and description, and the transaction hash
    (empty when absent). *)
Theorem convertRow_common :
  exists target label,
    convertRow row = Ok target
    /\ get_prop target "Label" = VStr label
    /\ (label = "Buy" /\ includes (toLowerCase orderType) "buy" = true
        \/ label = "Sell" /\ includes (toLowerCase orderType) "buy" = false
                          /\ includes (toLowerCase orderType) "sell" = true
        \/ label = orderType /\ includes (toLowerCase orderType) "buy" = false
                             /\ includes (toLowerCase orderType) "sell" = false)
    /\ Ok (get_prop target "Date")
         = bind (convertMountainTimeToUTC (VStr orderDate)) (fun d => Ok (VStr d))
    /\ get_prop target "Fee Amount" = VStr (amount_text (row !! "Miner Fee"))
    /\ get_prop target "Fee Currency" = VStr (text_or_empty (row !! "Crypto Code"))
    /\ get_prop target "Net Worth Amount" = VStr ""
    /\ get_prop target "Net Worth Currency" = VStr ""
    /\ get_prop target "Description" = VStr ""
    /\ get_prop target "TxHash" = VStr (text_or_empty (row !! "Transaction Hash")).
Proof.
  open_convertRow Htype Hdate date Hd.
  destruct (includes (toLowerCase orderType) "buy") eqn:Hbuy;
    [|destruct (includes (toLowerCase orderType) "sell") eqn:Hsell].
  - exists_ok "Buy".
  - exists_ok "Sell".
  - exists_ok orderType.
Qed.

(** X4. The earlier mapper differs in the date alone: its record is the
    record of the current one with the order date written back as it came. *)
Lemma earlier_convertRow_date :
  exists target,
    convertRow row = Ok target
    /\ Earlier.convertRow row = Ok (<["Date" := VStr orderDate]> target).
Proof.
  open_convertRow Htype Hdate date Hd.
  unfold Earlier.convertRow.
  rewrite (row_get_Some _ _ _ Htype), (row_get_Some _ _ _ Hdate).
  cbn [bind on_string]. rewrite ?guarded_amount, ?or_empty.
  destruct (includes (toLowerCase orderType) "buy");
    [|destruct (includes (toLowerCase orderType) "sell")];
    (eexists; split; reflexivity).
Qed.

End Mapper.

(** ** The Batch Filter *)

Lemma not_swap_is_swap (row : SourceRow) :
  has_order_type row -> not_swap row = Ok (negb (is_swap row)).
Proof.
  intros [orderType H]. unfold not_swap, is_swap.
  now rewrite (on_string_field _ _ _ _ _ H), H.
Qed.

Lemma filteredData_filter (data : list SourceRow) :
  Forall has_order_type data ->
  filteredData data = Ok (List.filter (fun row => negb (is_swap row)) data).
Proof.
  unfold filteredData.
  induction 1 as [|row data Hrow _ IH]; [reflexivity|].
  cbn [filterM List.filter]. rewrite (not_swap_is_swap _ Hrow), IH.
  reflexivity.
Qed.

Lemma filter_sublist {A : Type} (p : A -> bool) (l : list A) :
  sublist (List.filter p l) l.
Proof.
  induction l as [|x l IH]; cbn [List.filter].
  - constructor.
  - destruct (p x); now constructor.
Qed.

Lemma filter_length_split {A : Type} (p : A -> bool) (l : list A) :
  (length (List.filter (fun x => negb (p x)) l) + length (List.filter p l)
   = length l)%nat.
Proof.
  induction l as [|x l IH]; [reflexivity|].
  cbn [List.filter]. destruct (p x); cbn [negb length]; lia.
Qed.

(** C5. The filter keeps exactly the rows that are not swap rows, in their
    order and as often as they occur; it drops as many rows as there are swap
    rows, and an empty input gives an empty output. *)
Theorem filteredData_subsequence (data : list SourceRow) :
  Forall has_order_type data ->
  exists out,
    filteredData data = Ok out
    /\ out = List.filter (fun row => negb (is_swap row)) data
    /\ sublist out data
    /\ (forall row, In row out <-> In row data /\ is_swap row = false)
    /\ (forall row, is_swap row = false ->
          count_occ (decide_rel eq) out row = count_occ (decide_rel eq) data row)
    /\ (length out + length (List.filter is_swap data) = length data)%nat
    /\ (data = [] -> out = []).
Proof.
  intros Hdata. eexists. split; [now apply filteredData_filter|].
  split; [reflexivity|]. split; [apply filter_sublist|].
  split; [|split; [|split]].
  - intros row. rewrite filter_In, negb_true_iff. reflexivity.
  - intros row Hrow. clear Hdata.
    induction data as [|x l IH]; [reflexivity|].
    cbn [List.filter count_occ].
    destruct (is_swap x) eqn:Hx; cbn [negb count_occ].
    + destruct (decide_rel eq x row) as [->|_]; [congruence|exact IH].
    + destruct (decide_rel eq x row); now rewrite IH.
  - apply filter_length_split.
  - now intros ->.
Qed.

(** The filter has nothing to fail on when the input is empty. *)
Lemma filteredData_nil : filteredData [] = Ok [].
Proof. reflexivity. Qed.

(** A row without an order type makes the filter throw, wherever it stands:
    the callback calls [toLowerCase] on [undefined]. *)
Lemma filteredData_throws (data : list SourceRow) :
  Exists (fun row => row !! "Order Type" = None) data ->
  filteredData data = Throw TypeError.
Proof.
  unfold filteredData.
  induction data as [|row data IH]; intros Hex; [now inversion Hex|].
  cbn [filterM]. unfold not_swap at 1, row_get.
  destruct (row !! "Order Type") as [orderType|] eqn:Hrow; [|reflexivity].
  cbn [on_string bind]. rewrite IH; [reflexivity|].
  inversion Hex as [? ? Hnone|? ? Hlater]; subst; [congruence|assumption].
Qed.

(** ** The CSV Serializer *)

Lemma includes_char (s : string) (c : ascii) :
  includes s (String c EmptyString) = true <-> contains_char s c.
Proof.
  unfold contains_char.
  induction s as [|a s IH]; cbn [includes String.prefix list_ascii_of_string In].
  - split; [discriminate|tauto].
  - rewrite orb_true_iff, IH.
    destruct (ascii_dec c a) as [->|Hne].
    + destruct s; tauto.
    + split; [intros [H|H]; [discriminate|tauto]|].
      intros [H|H]; [congruence|tauto].
Qed.

Lemma string_of_list_ascii_app (l1 l2 : list ascii) :
  string_of_list_ascii (l1 ++ l2)
  = string_of_list_ascii l1 +:+ string_of_list_ascii l2.
Proof. induction l1 as [|a l1 IH]; cbn; [reflexivity|now rewrite IH]. Qed.

Lemma replace_global_doubles (s : string) :
  replace_global s dquote (quote_str +:+ quote_str)
  = string_of_list_ascii (flat_map double_quote (list_ascii_of_string s)).
Proof.
  induction s as [|a s IH]; [reflexivity|].
  cbn [replace_global list_ascii_of_string flat_map]. unfold double_quote at 1.
  rewrite IH. destruct (Ascii.eqb a dquote); reflexivity.
Qed.

Lemma quoted_form_code (s : string) :
  quote_str +:+ replace_global s dquote (quote_str +:+ quote_str) +:+ quote_str
  = quoted_form s.
Proof.
  unfold quoted_form. rewrite replace_global_doubles.
  cbn [string_of_list_ascii]. rewrite string_of_list_ascii_app. reflexivity.
Qed.

Lemma needs_quotes_test (s : string) :
  includes s "," || includes s quote_str = true <-> needs_quotes s.
Proof.
  unfold needs_quotes, quote_str.
  now rewrite orb_true_iff, !includes_char.
Qed.

Lemma cell_string (row : jsobject) (header s : string) :
  get_prop row header = VStr s ->
  cell row header
  = if includes s "," || includes s quote_str then VStr (quoted_form s) else VStr s.
Proof.
  intros H. unfold cell. rewrite H. cbn [nullish].
  now rewrite quoted_form_code.
Qed.

(** C7. A string field is written in its quoted form exactly when its text
    contains a comma or a double quote; any other field, a line feed or a
    carriage return in it or not, is written as it is. The field [tom_bones]
    of the specification is written [tom_bones_quoted]. *)
Theorem cell_quoting (row : jsobject) (header s : string) :
  get_prop row header = VStr s ->
  let written := join_item (cell row header) in
  (written = quoted_form s <-> needs_quotes s)
  /\ (~ needs_quotes s -> written = s)
  /\ (contains_char s "010" \/ contains_char s "013" ->
      ~ needs_quotes s -> written = s)
  /\ (s = tom_bones -> written = tom_bones_quoted).
Proof.
  intros H written. unfold written. rewrite (cell_string _ _ _ H).
  destruct (includes s "," || includes s quote_str) eqn:Htest;
    cbn [join_item ToString].
  - apply needs_quotes_test in Htest.
    repeat split; try tauto. now intros ->.
  - assert (Hno : ~ needs_quotes s).
    { rewrite <- needs_quotes_test, Htest. discriminate. }
    split; [|repeat split; try reflexivity].
    + split; [|tauto]. intros Heq. exfalso. apply Hno. right.
      unfold contains_char. rewrite Heq at 1.
      unfold quoted_form. cbn. now left.
    + intros ->. discriminate Htest.
Qed.

(** *** The document *)

Lemma push_each {A B : Type} (f : A -> B) (xs : list A) (init : list B) :
  fold_left (fun acc x => acc ++ [f x]) xs init = init ++ map f xs.
Proof.
  revert init. induction xs as [|x xs IH]; intros init; cbn [fold_left map].
  - now rewrite app_nil_r.
  - rewrite IH, <- app_assoc. reflexivity.
Qed.

Lemma join_strings (sep : string) (ls : list string) :
  join (map VStr ls) sep = String.concat sep ls.
Proof.
  induction ls as [|l ls IH]; [reflexivity|].
  destruct ls as [|l' ls]; [reflexivity|].
  cbn [map join String.concat] in *. now rewrite IH.
Qed.

Lemma append_assoc (a b c : string) : (a +:+ b) +:+ c = a +:+ (b +:+ c).
Proof. induction a as [|x a IH]; simpl; [reflexivity|f_equal; exact IH]. Qed.

Lemma append_empty_r (a : string) : a +:+ "" = a.
Proof. induction a as [|x a IH]; simpl; [reflexivity|f_equal; exact IH]. Qed.

Lemma concat_lines (sep first : string) (rest : list string) :
  String.concat sep (first :: rest)
  = first +:+ String.concat "" (map (fun l => sep +:+ l) rest).
Proof.
  revert first. induction rest as [|l rest IH]; intros first.
  - cbn. now rewrite append_empty_r.
  - change (String.concat sep (first :: l :: rest))
      with (first +:+ sep +:+ String.concat sep (l :: rest)).
    rewrite IH. cbn [map]. destruct rest as [|l' rest].
    + cbn. now rewrite !append_empty_r.
    + cbn [map String.concat]. now rewrite !append_assoc.
Qed.

Lemma generateKoinlyCsv_lines (rows : list jsobject) :
  generateKoinlyCsv rows = String.concat newline (header_line :: map row_line rows).
Proof.
  unfold generateKoinlyCsv. rewrite push_each.
  change [VStr (join (map VStr headers) ",")] with (map VStr [header_line]).
  rewrite <- (map_map row_line VStr), <- map_app, join_strings.
  reflexivity.
Qed.

Lemma lines_of_nonempty (s : string) : exists l ls, lines_of s = l :: ls.
Proof.
  induction s as [|c s (l & ls & IH)]; cbn [lines_of]; [now eexists _, _|].
  rewrite IH. destruct (Ascii.eqb c "010"); now eexists _, _.
Qed.

Lemma lines_of_append (a b : string) :
  ~ contains_char a "010" ->
  lines_of (a +:+ b)
  = match lines_of b with
    | l :: ls => (a +:+ l) :: ls
    | [] => [a]
    end.
Proof.
  unfold contains_char. induction a as [|c a IH]; intros Hno.
  - change ("" +:+ b) with b.
    now destruct (lines_of_nonempty b) as (l & ls & ->).
  - cbn [list_ascii_of_string In] in Hno.
    change (String c a +:+ b) with (String c (a +:+ b)). cbn [lines_of].
    destruct (Ascii.eqb_spec c "010") as [->|_]; [tauto|].
    rewrite IH by tauto.
    now destruct (lines_of_nonempty b) as (l & ls & ->).
Qed.

Lemma lines_of_newline (b : string) : lines_of (newline +:+ b) = "" :: lines_of b.
Proof. reflexivity. Qed.

Lemma header_line_one_line : ~ contains_char header_line "010".
Proof.
  unfold contains_char. intros Hin.
  assert (H : existsb (Ascii.eqb "010") (list_ascii_of_string header_line) = true).
  { apply existsb_exists. exists "010"%char. split; [exact Hin|reflexivity]. }
  vm_compute in H. discriminate.
Qed.

Lemma lines_of_one_line (l : string) :
  ~ contains_char l "010" -> lines_of l = [l].
Proof.
  intros Hl. pose proof (lines_of_append l "" Hl) as H.
  cbn [lines_of] in H. now rewrite !append_empty_r in H.
Qed.

Lemma lines_of_record_lines (ls : list string) :
  Forall (fun l => ~ contains_char l "010") ls ->
  lines_of (String.concat "" (map (fun l => newline +:+ l) ls))
  = match ls with
    | [] => [""]
    | _ => "" :: ls
    end.
Proof.
  induction 1 as [|l ls Hl Hls IH]; [reflexivity|].
  cbn [map]. destruct ls as [|l' ls].
  - cbn [map String.concat]. rewrite lines_of_newline.
    now rewrite lines_of_one_line.
  - change (String.concat "" ((newline +:+ l) :: map (fun l0 => newline +:+ l0) (l' :: ls)))
      with ((newline +:+ l) +:+ "" +:+ String.concat "" (map (fun l0 => newline +:+ l0) (l' :: ls))).
    rewrite append_assoc, lines_of_newline.
    change ("" +:+ ?x) with x.
    rewrite lines_of_append by assumption.
    now rewrite IH, append_empty_r.
Qed.

(** C8. The document is the fixed header line followed by the line of each
    record, in the order of the input, one line feed before each record line
    and none after the last. Read back line by line, its first line is the
    header line, and when no cell holds a line feed its lines are the header
    line and the record lines. *)
Theorem generateKoinlyCsv_document (rows : list jsobject) :
  join (map VStr headers) "," = header_line
  /\ length headers = 12%nat
  /\ generateKoinlyCsv rows
     = String.concat newline (header_line :: map row_line rows)
  /\ generateKoinlyCsv rows
     = header_line
       +:+ String.concat "" (map (fun row => newline +:+ row_line row) rows)
  /\ length (header_line :: map row_line rows) = S (length rows)
  /\ (forall i row, rows !! i = Some row ->
        (header_line :: map row_line rows) !! S i = Some (row_line row))
  /\ generateKoinlyCsv [] = header_line
  /\ hd "" (lines_of (generateKoinlyCsv rows)) = header_line
  /\ (Forall (fun row => ~ contains_char (row_line row) "010") rows ->
      lines_of (generateKoinlyCsv rows) = header_line :: map row_line rows).
Proof.
  assert (Hdoc : generateKoinlyCsv rows
                 = header_line
                   +:+ String.concat "" (map (fun l => newline +:+ l) (map row_line rows))).
  { rewrite generateKoinlyCsv_lines, concat_lines. reflexivity. }
  repeat split; try reflexivity.
  - apply generateKoinlyCsv_lines.
  - rewrite Hdoc, map_map. reflexivity.
  - cbn [length]. now rewrite length_map.
  - intros i row Hi.
    change ((row_line <$> rows) !! i = Some (row_line row)).
    rewrite list_lookup_fmap, Hi. reflexivity.
  - rewrite Hdoc, lines_of_append by apply header_line_one_line.
    destruct rows as [|row rows]; [reflexivity|].
    cbn [map]. 
    change (String.concat "" ((newline +:+ ?l) :: ?ls))
      with (match ls with [] => newline +:+ l
                        | _ => (newline +:+ l) +:+ "" +:+ String.concat "" ls end).
    destruct (map _ (map row_line rows));
      rewrite ?append_assoc, lines_of_newline; cbn [hd];
      now rewrite append_empty_r.
  - intros Hrows. rewrite Hdoc, lines_of_append by apply header_line_one_line.
    rewrite lines_of_record_lines.
    + destruct rows; cbn [map]; now rewrite append_empty_r.
    + apply Forall_map. exact Hrows.
Qed.

Lemma concat_empty_app (l1 l2 : list string) :
  String.concat "" (l1 ++ l2) = String.concat "" l1 +:+ String.concat "" l2.
Proof.
  induction l1 as [|a l1 IH]; [reflexivity|].
  destruct l1 as [|b l1].
  - destruct l2; simpl; [now rewrite append_empty_r|reflexivity].
  - change (String.concat "" ((a :: b :: l1) ++ l2))
      with (a +:+ "" +:+ String.concat "" ((b :: l1) ++ l2)).
    rewrite IH. simpl. now rewrite append_assoc.
Qed.

Lemma generateKoinlyCsv_has_line (rows : list jsobject) (row : jsobject) :
  In row rows ->
  exists before after,
    generateKoinlyCsv rows = before +:+ newline +:+ row_line row +:+ after.
Proof.
  intros Hin. apply in_split in Hin as (l1 & l2 & ->).
  rewrite generateKoinlyCsv_lines, concat_lines, map_map, map_app.
  cbn [map]. rewrite concat_empty_app.
  exists (header_line
          +:+ String.concat "" (map (fun r => newline +:+ row_line r) l1)).
  exists (String.concat "" (map (fun r => newline +:+ row_line r) l2)).
  rewrite !append_assoc. do 2 f_equal.
  destruct l2 as [|r l2].
  - simpl. now rewrite !append_empty_r.
  - cbn [map].
    change (String.concat "" (?x :: ?y :: ?l))
      with (x +:+ "" +:+ String.concat "" (y :: l)) at 1.
    now rewrite append_assoc.
Qed.

(** On the rows of the conversion core: a header whose property is missing
    or [undefined] gives the empty cell, every row gives one cell per header,
    in the order of the headers, and the line of every row is in the
    document. *)
Lemma generateKoinlyCsv_cells (rows : list jsobject) (row : jsobject) :
  In row rows ->
  (forall header,
      In header headers ->
      row !! header = None \/ row !! header = Some VUndefined ->
      cell row header = VStr "" /\ join_item (cell row header) = "")
  /\ length (rowValues row) = length headers
  /\ length headers = 12%nat
  /\ (forall i header, headers !! i = Some header ->
        rowValues row !! i = Some (cell row header))
  /\ row_line row = join (rowValues row) ","
  /\ exists before after,
       generateKoinlyCsv rows = before +:+ newline +:+ row_line row +:+ after.
Proof.
  intros Hin. split; [|split; [|split; [|split; [|split]]]].
  - intros header _ Hmiss. unfold cell, get_prop.
    destruct Hmiss as [-> | ->]; split; reflexivity.
  - unfold rowValues. apply length_map.
  - reflexivity.
  - intros i header Hi. unfold rowValues.
    change ((cell row <$> headers) !! i = Some (cell row header)).
    rewrite list_lookup_fmap, Hi. reflexivity.
  - reflexivity.
  - now apply generateKoinlyCsv_has_line.
Qed.

(** ** A missing key against an empty field *)

Section MissingKey.

Variable row : SourceRow.
Variable k : string.

Lemma row_get_missing_ne (k' : string) :
  k <> k' -> row_get (delete k row) k' = row_get (<[k := ""]> row) k'.
Proof.
  intros Hne. unfold row_get.
  now rewrite lookup_delete_ne, lookup_insert_ne.
Qed.

Lemma amount_text_missing (k' : string) :
  amount_text (delete k row !! k') = amount_text (<[k := ""]> row !! k').
Proof.
  destruct (decide (k = k')) as [->|Hne].
  - now rewrite lookup_delete_eq, lookup_insert_eq.
  - now rewrite lookup_delete_ne, lookup_insert_ne.
Qed.

Lemma text_or_empty_missing (k' : string) :
  text_or_empty (delete k row !! k') = text_or_empty (<[k := ""]> row !! k').
Proof.
  destruct (decide (k = k')) as [->|Hne].
  - now rewrite lookup_delete_eq, lookup_insert_eq.
  - now rewrite lookup_delete_ne, lookup_insert_ne.
Qed.

Lemma not_swap_missing :
  k <> "Order Type" -> not_swap (delete k row) = not_swap (<[k := ""]> row).
Proof. intros H. unfold not_swap. now rewrite row_get_missing_ne. Qed.

Lemma convertRow_missing :
  k <> "Order Type" -> k <> "Order Date" ->
  k <> "Crypto Amount" -> k <> "Crypto Code" ->
  convertRow (delete k row) = convertRow (<[k := ""]> row).
Proof.
  intros Ht Hd Ha Hc. unfold convertRow.
  rewrite !guarded_amount, !or_empty.
  rewrite !amount_text_missing, !text_or_empty_missing.
  rewrite (row_get_missing_ne "Order Type"), (row_get_missing_ne "Order Date"),
    (row_get_missing_ne "Crypto Amount"), (row_get_missing_ne "Crypto Code")
    by assumption.
  reflexivity.
Qed.

End MissingKey.

Lemma convertedRows_single (row : SourceRow) :
  convertedRows [row]
  = attempt keep <- not_swap row in
    if keep then attempt target <- convertRow row in Ok [target] else Ok [].
Proof.
  unfold convertedRows, filteredData. cbn [filterM bind].
  destruct (not_swap row) as [[|]|e]; reflexivity.
Qed.

Lemma convert_single (row : SourceRow) :
  convert [row]
  = attempt keep <- not_swap row in
    if keep then attempt target <- convertRow row in
                 Ok (header_line +:+ newline +:+ row_line target)
    else Ok header_line.
Proof.
  unfold convert. rewrite convertedRows_single.
  destruct (not_swap row) as [[|]|e]; cbn [bind]; try reflexivity.
  destruct (convertRow row); cbn [bind]; [|reflexivity].
  now rewrite generateKoinlyCsv_lines.
Qed.

Lemma row_get_delete_eq (row : SourceRow) (k : string) :
  row_get (delete k row) k = VUndefined.
Proof. unfold row_get. now rewrite lookup_delete_eq. Qed.

Lemma row_get_insert_eq (row : SourceRow) (k s : string) :
  row_get (<[k := s]> row) k = VStr s.
Proof. unfold row_get. now rewrite lookup_insert_eq. Qed.

Ltac same_line_after_convertRow :=
  unfold converted_line, convertRow;
  rewrite !guarded_amount, !or_empty;
  rewrite !amount_text_missing, !text_or_empty_missing;
  rewrite ?(row_get_missing_ne _ _ "Order Type"),
    ?(row_get_missing_ne _ _ "Order Date"),
    ?(row_get_missing_ne _ _ "Crypto Amount"),
    ?(row_get_missing_ne _ _ "Crypto Code") by discriminate;
  rewrite !row_get_delete_eq, !row_get_insert_eq;
  repeat match goal with
         | |- context [row_get ?r ?k] => generalize (row_get r k); intro
         | |- context [amount_text ?o] => generalize (amount_text o); intro
         | |- context [text_or_empty ?o] => generalize (text_or_empty o); intro
         end;
  match goal with
  | |- context [convertMountainTimeToUTC ?v] =>
      destruct (convertMountainTimeToUTC v); [|reflexivity]
  end;
  cbn [bind];
  match goal with
  | |- context [on_string ?v ?f] => destruct (on_string v f); [|reflexivity]
  end;
  cbn [bind];
  repeat match goal with
         | |- context [includes ?a ?b] => destruct (includes a b)
         end;
  reflexivity.

Lemma converted_line_missing (row : SourceRow) (k : string) :
  k <> "Order Type" -> k <> "Order Date" ->
  converted_line (delete k row) = converted_line (<[k := ""]> row).
Proof.
  intros Ht Hd.
  destruct (decide (k = "Crypto Amount")) as [->|Ha].
  { same_line_after_convertRow. }
  destruct (decide (k = "Crypto Code")) as [->|Hc].
  { same_line_after_convertRow. }
  unfold converted_line. now rewrite convertRow_missing.
Qed.

Lemma convert_single_line (row : SourceRow) :
  convert [row]
  = attempt keep <- not_swap row in
    if keep then attempt line <- converted_line row in
                 Ok (header_line +:+ newline +:+ line)
    else Ok header_line.
Proof.
  rewrite convert_single. unfold converted_line.
  destruct (not_swap row) as [[|]|e]; cbn [bind]; try reflexivity.
  destruct (convertRow row); reflexivity.
Qed.

(** C9, as the code has it. For every field but the order type and the order
    date, a missing key and an empty string give the same CSV text; for every
    field but these two, the crypto amount and the crypto code, they give the
    same record as well. *)
Theorem missing_key_as_empty (row : SourceRow) (k : string) :
  k <> "Order Type" -> k <> "Order Date" ->
  (k <> "Crypto Amount" -> k <> "Crypto Code" ->
   convertedRows [delete k row] = convertedRows [<[k := ""]> row])
  /\ convert [delete k row] = convert [<[k := ""]> row].
Proof.
  intros Ht Hd. split.
  - intros Ha Hc.
    now rewrite !convertedRows_single, not_swap_missing, convertRow_missing.
  - now rewrite !convert_single_line, not_swap_missing, converted_line_missing.
Qed.

(** C9 fails as stated: without its order type or its order date a row makes
    the conversion throw, and without its crypto amount or crypto code the
    record holds [undefined] where the empty string would be. *)
Lemma missing_key_differs :
  convertedRows [delete "Order Type" sample_row]
    <> convertedRows [<["Order Type" := ""]> sample_row]
  /\ convertedRows [delete "Order Date" sample_row]
    <> convertedRows [<["Order Date" := ""]> sample_row]
  /\ convertedRows [delete "Crypto Amount" sample_row]
    <> convertedRows [<["Crypto Amount" := ""]> sample_row]
  /\ convertedRows [delete "Crypto Code" sample_row]
    <> convertedRows [<["Crypto Code" := ""]> sample_row].
Proof.
  repeat split; intros H.
  - assert (E1 : convertedRows [delete "Order Type" sample_row] = Throw TypeError)
      by reflexivity.
    assert (E2 : exists t, convertedRows [<["Order Type" := ""]> sample_row] = Ok [t])
      by (eexists; reflexivity).
    destruct E2 as [t E2]. rewrite E1, E2 in H. discriminate.
  - assert (E1 : convertedRows [delete "Order Date" sample_row] = Throw TypeError)
      by reflexivity.
    assert (E2 : exists t, convertedRows [<["Order Date" := ""]> sample_row] = Ok [t])
      by (eexists; reflexivity).
    destruct E2 as [t E2]. rewrite E1, E2 in H. discriminate.
  - assert (E1 : exists t, convertedRows [delete "Crypto Amount" sample_row] = Ok [t]
                   /\ get_prop t "Received Amount" = VUndefined)
      by (eexists; split; reflexivity).
    assert (E2 : exists t, convertedRows [<["Crypto Amount" := ""]> sample_row] = Ok [t]
                   /\ get_prop t "Received Amount" = VStr "")
      by (eexists; split; reflexivity).
    destruct E1 as (t1 & E1 & G1), E2 as (t2 & E2 & G2).
    rewrite E1, E2 in H. injection H as ->. rewrite G1 in G2. discriminate.
  - assert (E1 : exists t, convertedRows [delete "Crypto Code" sample_row] = Ok [t]
                   /\ get_prop t "Received Currency" = VUndefined)
      by (eexists; split; reflexivity).
    assert (E2 : exists t, convertedRows [<["Crypto Code" := ""]> sample_row] = Ok [t]
                   /\ get_prop t "Received Currency" = VStr "")
      by (eexists; split; reflexivity).
    destruct E1 as (t1 & E1 & G1), E2 as (t2 & E2 & G2).
    rewrite E1, E2 in H. injection H as ->. rewrite G1 in G2. discriminate.
Qed.

(** What the conversion does on these rows. *)
Example missing_order_type_throws :
  convertedRows [delete "Order Type" sample_row] = Throw TypeError
  /\ exists target, convertedRows [<["Order Type" := ""]> sample_row] = Ok [target]
       /\ get_prop target "Label" = VStr "".
Proof. split; [reflexivity|]. eexists. split; reflexivity. Qed.

Example missing_order_date_throws :
  convertedRows [delete "Order Date" sample_row] = Throw TypeError
  /\ exists target, convertedRows [<["Order Date" := ""]> sample_row] = Ok [target]
       /\ get_prop target "Date" = VStr "NaN-NaN-NaN NaN:NaN UTC".
Proof. split; [reflexivity|]. eexists. split; reflexivity. Qed.

(** ** The Time Normalizer: the arithmetic of time values *)

Module DateFacts.

Import DateModel Calendar.
Local Open Scope Z_scope.

Lemma DayFromYear_next (y : Z) : DayFromYear (y + 1) = DayFromYear y + DaysInYear y.
Proof.
  unfold DayFromYear, DaysInYear, isLeap.
  destruct (y mod 4 =? 0) eqn:H4; destruct (y mod 100 =? 0) eqn:H100;
    destruct (y mod 400 =? 0) eqn:H400; cbn [andb orb negb];
    rewrite ?Z.eqb_eq, ?Z.eqb_neq in *; Z.div_mod_to_equations; lia.
Qed.

Lemma DayFromYear_mono (a b : Z) : a <= b -> DayFromYear a <= DayFromYear b.
Proof. unfold DayFromYear. intros. Z.div_mod_to_equations. lia. Qed.

Lemma year_search_finds (fuel : nat) (y0 y day : Z) :
  y0 <= y -> y - y0 <= Z.of_nat fuel ->
  DayFromYear y <= day < DayFromYear (y + 1) ->
  year_search fuel y0 day = y.
Proof.
  revert y0. induction fuel as [|fuel IH]; intros y0 Hle Hfuel Hday.
  - cbn [year_search]. lia.
  - cbn [year_search].
    destruct (Z.leb_spec (DayFromYear (y0 + 1)) day) as [Hnext|Hnext].
    + assert (y0 < y).
      { destruct (Z.eq_dec y0 y) as [->|]; lia. }
      apply IH; lia.
    + destruct (Z.eq_dec y0 y) as [|Hne]; [assumption|].
      pose proof (DayFromYear_mono (y0 + 1) y). lia.
Qed.

Lemma YearFromDay_unique (y day : Z) :
  DayFromYear y <= day < DayFromYear (y + 1) -> YearFromDay day = y.
Proof.
  intros Hday. unfold YearFromDay. apply year_search_finds; [| |assumption].
  - unfold DayFromYear in Hday. Z.div_mod_to_equations. lia.
  - rewrite Z2Nat.id by (pose proof (Z.abs_nonneg day); Z.div_mod_to_equations; lia).
    unfold DayFromYear in Hday. Z.div_mod_to_equations. lia.
Qed.

Ltac month_cases m :=
  let H := fresh in
  assert (H : m = 1 \/ m = 2 \/ m = 3 \/ m = 4 \/ m = 5 \/ m = 6 \/ m = 7
            \/ m = 8 \/ m = 9 \/ m = 10 \/ m = 11 \/ m = 12) by lia;
  repeat (destruct H as [H|H]); subst m.

Ltac calc_days :=
  repeat match goal with
         | |- context [daysBeforeMonth ?b ?n] =>
             let v := eval vm_compute in (daysBeforeMonth b n) in
             change (daysBeforeMonth b n) with v
         | H : context [days_in_month ?y ?n] |- _ =>
             let v := eval cbv beta iota delta [days_in_month] in (days_in_month y n) in
             change (days_in_month y n) with v in H
         end.

Ltac calendar_cases y m :=
  destruct (isLeap y) eqn:?Hleap; month_cases m; calc_days;
  repeat match goal with
         | Hl : isLeap ?y = _, H : context [isLeap ?y] |- _ => rewrite Hl in H
         end.

Lemma MakeDay_month (y m d : Z) :
  0 <= m <= 11 ->
  MakeDay y m d = DayFromYear y + daysBeforeMonth (isLeap y) m + d - 1.
Proof.
  intros Hm. unfold MakeDay.
  rewrite Z.div_small, Z.mod_small, Z.add_0_r by lia. reflexivity.
Qed.

Lemma day_within_year (y m d : Z) :
  valid_day y m d ->
  0 <= daysBeforeMonth (isLeap y) (m - 1) + d - 1 < DaysInYear y.
Proof.
  intros [Hm Hd]. unfold DaysInYear.
  calendar_cases y m; lia.
Qed.

Lemma Day_MakeDate (day w : Z) :
  0 <= w < msPerDay -> Day (MakeDate day w) = day.
Proof.
  unfold Day, MakeDate, msPerDay. intros Hw. Z.div_mod_to_equations. lia.
Qed.

Lemma civil_from_time (y m d w : Z) :
  valid_day y m d -> 0 <= w < msPerDay ->
  let t := MakeDate (MakeDay y (m - 1) d) w in
  YearFromTime t = y /\ MonthFromTime t = m - 1 /\ DateFromTime t = d.
Proof.
  intros Hv Hw t.
  assert (Hday : Day t = DayFromYear y + (daysBeforeMonth (isLeap y) (m - 1) + d - 1)).
  { unfold t. rewrite Day_MakeDate by assumption.
    rewrite MakeDay_month by (destruct Hv; lia). lia. }
  pose proof (day_within_year _ _ _ Hv) as Hin.
  assert (Hy : YearFromTime t = y).
  { unfold YearFromTime. apply YearFromDay_unique.
    rewrite DayFromYear_next, Hday. lia. }
  assert (Hdw : DayWithinYear t = daysBeforeMonth (isLeap y) (m - 1) + d - 1).
  { unfold DayWithinYear. rewrite Hy, Hday. lia. }
  split; [exact Hy|].
  unfold DateFromTime, MonthFromTime, InLeapYear. rewrite Hdw, Hy.
  destruct Hv as [Hm Hd].
  calendar_cases y m;
    repeat match goal with
           | |- context [?a <? ?b] => destruct (Z.ltb_spec a b); try lia
           end; split; lia.
Qed.

Lemma days_in_month_bounds (y m : Z) : 28 <= days_in_month y m <= 31.
Proof.
  unfold days_in_month. destruct (isLeap y);
    repeat match goal with
           | |- context [match ?p with _ => _ end] => destruct p
           end; lia.
Qed.

Lemma next_day_follows (y m d : Z) :
  valid_day y m d ->
  let '(y', m', d') := next_day y m d in
  valid_day y' m' d' /\ MakeDay y' (m' - 1) d' = MakeDay y (m - 1) d + 1.
Proof.
  intros [Hm Hd]. unfold next_day.
  destruct (Z.ltb_spec d (days_in_month y m)) as [Hlt|Hge].
  { split; [split; lia|]. rewrite !MakeDay_month by lia. lia. }
  destruct (Z.ltb_spec m 12) as [Hm12|Hm12].
  - split.
    + split; [lia|]. pose proof (days_in_month_bounds y (m + 1)). lia.
    + rewrite !MakeDay_month by lia.
      replace (m + 1 - 1) with m by lia.
      calendar_cases y m; lia.
  - assert (m = 12) by lia. subst m. split.
    + split; [lia|]. cbv [days_in_month]. lia.
    + rewrite !MakeDay_month by lia.
      rewrite DayFromYear_next. unfold DaysInYear.
      cbv [days_in_month] in Hd, Hge.
      destruct (isLeap y); calc_days; lia.
Qed.

Lemma time_within_day (day h mi s : Z) :
  0 <= h <= 23 -> 0 <= mi <= 59 -> 0 <= s <= 59 ->
  let w := MakeTime h mi s 0 in
  0 <= w < msPerDay
  /\ HourFromTime (MakeDate day w) = h
  /\ MinFromTime (MakeDate day w) = mi.
Proof.
  intros Hh Hmi Hs.
  unfold MakeTime, MakeDate, HourFromTime, MinFromTime,
    msPerDay, msPerHour, msPerMinute, msPerSecond.
  cbv zeta. repeat split; try lia; Z.div_mod_to_equations; lia.
Qed.

Lemma shift_MakeDate (y m d h mi s : Z) :
  valid_day y m d -> 0 <= h <= 23 ->
  let '(y', m', d', h') := add_seven_hours y m d h in
  valid_day y' m' d' /\ 0 <= h' <= 23
  /\ MakeDate (MakeDay y (m - 1) d) (MakeTime h mi s 0) + 420 * msPerMinute
     = MakeDate (MakeDay y' (m' - 1) d') (MakeTime h' mi s 0).
Proof.
  intros Hv Hh. unfold add_seven_hours.
  destruct (Z.ltb_spec (h + 7) 24) as [Hlt|Hge].
  - split; [assumption|]. split; [lia|].
    unfold MakeDate, MakeTime, msPerDay, msPerHour, msPerMinute, msPerSecond. lia.
  - pose proof (next_day_follows y m d Hv) as Hnext.
    destruct (next_day y m d) as [[y' m'] d']. destruct Hnext as [Hv' Hday].
    split; [assumption|]. split; [lia|].
    rewrite Hday.
    unfold MakeDate, MakeTime, msPerDay, msPerHour, msPerMinute, msPerSecond. lia.
Qed.

(** The UTC getters on the shifted instant read the calendar date and the
    wall-clock time seven hours after the local ones. *)
Lemma shifted_components (y m d h mi s : Z) :
  valid_day y m d -> 0 <= h <= 23 -> 0 <= mi <= 59 -> 0 <= s <= 59 ->
  let t := MakeDate (MakeDay y (m - 1) d) (MakeTime h mi s 0) + 420 * msPerMinute in
  let '(y', m', d', h') := add_seven_hours y m d h in
  YearFromTime t = y' /\ MonthFromTime t = m' - 1 /\ DateFromTime t = d'
  /\ HourFromTime t = h' /\ MinFromTime t = mi /\ 1 <= m' <= 12 /\ 1 <= d' <= 31.
Proof.
  intros Hv Hh Hmi Hs t.
  pose proof (shift_MakeDate y m d h mi s Hv Hh) as Hshift.
  destruct (add_seven_hours y m d h) as [[[y' m'] d'] h'].
  destruct Hshift as (Hv' & Hh' & Ht). unfold t. rewrite Ht.
  destruct (time_within_day (MakeDay y' (m' - 1) d') h' mi s Hh' Hmi Hs)
    as (Hw & Hhour & Hmin).
  destruct (civil_from_time y' m' d' _ Hv' Hw) as (Hy & Hmo & Hd).
  repeat split; try assumption; try (destruct Hv'; lia).
  destruct Hv' as [Hm' Hd']. clear -Hm' Hd'.
  calendar_cases y' m'; lia.
Qed.

Lemma DayFromYear_bounds (y : Z) :
  0 <= y <= 10000 -> -720000 <= DayFromYear y <= 2933000.
Proof. intros Hy. unfold DayFromYear. Z.div_mod_to_equations. lia. Qed.

Lemma shifted_in_range (y m d h mi s : Z) :
  0 <= y <= 9999 -> valid_day y m d ->
  0 <= h <= 23 -> 0 <= mi <= 59 -> 0 <= s <= 59 ->
  TimeClip (MakeDate (MakeDay y (m - 1) d) (MakeTime h mi s 0) - -420 * msPerMinute)
  = Int (MakeDate (MakeDay y (m - 1) d) (MakeTime h mi s 0) + 420 * msPerMinute).
Proof.
  intros Hy Hv Hh Hmi Hs.
  pose proof (day_within_year _ _ _ Hv) as Hin.
  pose proof (DayFromYear_bounds y ltac:(lia)) as Hb.
  assert (Hdiy : DaysInYear y <= 366) by (unfold DaysInYear; destruct (isLeap y); lia).
  unfold TimeClip.
  rewrite MakeDay_month by (destruct Hv; lia).
  replace (_ - -420 * msPerMinute)
    with (MakeDate (DayFromYear y + daysBeforeMonth (isLeap y) (m - 1) + d - 1)
            (MakeTime h mi s 0) + 420 * msPerMinute) by lia.
  destruct (Z.leb_spec
    (Z.abs (MakeDate (DayFromYear y + daysBeforeMonth (isLeap y) (m - 1) + d - 1)
              (MakeTime h mi s 0) + 420 * msPerMinute)) 8640000000000000)
    as [Hle|Hgt]; [reflexivity|].
  exfalso. revert Hgt.
  unfold MakeDate, MakeTime, msPerDay, msPerHour, msPerMinute, msPerSecond. lia.
Qed.
End DateFacts.

(** ** The Time Normalizer: reading and writing the digits *)

Module Timestamps.

Import DateModel DateParse Calendar DateFacts.
Local Open Scope Z_scope.

Ltac digit_cases d :=
  let H := fresh in
  assert (H : d = 0 \/ d = 1 \/ d = 2 \/ d = 3 \/ d = 4 \/ d = 5 \/ d = 6
            \/ d = 7 \/ d = 8 \/ d = 9) by lia;
  repeat (destruct H as [H|H]); subst d.

Lemma digit_of_char (d : Z) : 0 <= d <= 9 -> digit_of (digit_char d) = Some d.
Proof. intros Hd. digit_cases d; reflexivity. Qed.

Lemma read_digits_char (n : nat) (d : Z) (s : string) (acc : Z) :
  0 <= d <= 9 ->
  read_digits (S n) (String (digit_char d) s) acc = read_digits n s (10 * acc + d).
Proof. intros Hd. cbn [read_digits]. now rewrite digit_of_char. Qed.

Lemma read_two_digits (n : Z) (rest : string) :
  0 <= n <= 99 -> read_digits 2 (two_digits n +:+ rest) 0 = Some (n, rest).
Proof.
  intros Hn. unfold two_digits.
  change (String ?a (String ?b EmptyString) +:+ rest) with (String a (String b rest)).
  rewrite !read_digits_char by (Z.div_mod_to_equations; lia).
  cbn [read_digits]. do 2 f_equal. Z.div_mod_to_equations. lia.
Qed.

Lemma read_four_digits (n : Z) (rest : string) :
  0 <= n <= 9999 -> read_digits 4 (four_digits n +:+ rest) 0 = Some (n, rest).
Proof.
  intros Hn. unfold four_digits, two_digits.
  change (read_digits 4
            (String (digit_char (n / 100 / 10))
               (String (digit_char ((n / 100) mod 10))
                  (String (digit_char (n mod 100 / 10))
                     (String (digit_char ((n mod 100) mod 10)) rest)))) 0
          = Some (n, rest)).
  rewrite !read_digits_char by (Z.div_mod_to_equations; lia).
  cbn [read_digits]. do 2 f_equal. Z.div_mod_to_equations. lia.
Qed.

Lemma parse_year_digit (d : Z) (s : string) :
  0 <= d <= 9 ->
  parse_year (String (digit_char d) s) = read_digits 4 (String (digit_char d) s) 0.
Proof. intros Hd. digit_cases d; reflexivity. Qed.

Lemma parse_year_four (n : Z) (rest : string) :
  0 <= n <= 9999 -> parse_year (four_digits n +:+ rest) = Some (n, rest).
Proof.
  intros Hn. rewrite <- read_four_digits by assumption.
  unfold four_digits, two_digits.
  change (String ?a (String ?b EmptyString) +:+ ?r) with (String a (String b r)).
  change (String ?a (String ?b ?r) +:+ rest)
    with (String a (String b (r +:+ rest))).
  apply parse_year_digit. Z.div_mod_to_equations. lia.
Qed.

Lemma replace_digit (d : Z) (s : string) :
  0 <= d <= 9 ->
  replace (String (digit_char d) s) " " "T"
  = String (digit_char d) (replace s " " "T").
Proof. intros Hd. digit_cases d; reflexivity. Qed.

Lemma replace_two_digits (n : Z) (rest : string) :
  0 <= n <= 99 ->
  replace (two_digits n +:+ rest) " " "T" = two_digits n +:+ replace rest " " "T".
Proof.
  intros Hn. unfold two_digits.
  change (String ?a (String ?b EmptyString) +:+ ?r) with (String a (String b r)).
  now rewrite !replace_digit by (Z.div_mod_to_equations; lia).
Qed.

Lemma replace_other (c : ascii) (s : string) :
  c <> " "%char ->
  replace (String c s) " " "T" = String c (replace s " " "T").
Proof.
  intros Hc. cbn [replace String.prefix String.length].
  destruct (ascii_dec " " c) as [E|_]; [congruence|reflexivity].
Qed.

Lemma replace_space (s : string) : replace (String " " s) " " "T" = String "T" s.
Proof. destruct s; reflexivity. Qed.

Lemma append_cons (c : ascii) (a b : string) :
  String c a +:+ b = String c (a +:+ b).
Proof. reflexivity. Qed.

Lemma append_nil_l (a : string) : "" +:+ a = a.
Proof. reflexivity. Qed.

Lemma replace_timestamp (y m d h mi s : Z) :
  0 <= y <= 9999 -> 0 <= m <= 99 -> 0 <= d <= 99 ->
  0 <= h <= 99 -> 0 <= mi <= 99 -> 0 <= s <= 99 ->
  replace (timestamp y m d h mi s) " " "T" +:+ "-07:00" = iso_text y m d h mi s.
Proof.
  intros Hy Hm Hd Hh Hmi Hs. unfold timestamp, iso_text, four_digits.
  rewrite !append_assoc, !append_cons, !append_nil_l.
  rewrite !replace_two_digits by (Z.div_mod_to_equations; lia).
  rewrite (replace_other "-") by discriminate.
  rewrite !replace_two_digits by (Z.div_mod_to_equations; lia).
  rewrite (replace_other "-") by discriminate.
  rewrite !replace_two_digits by (Z.div_mod_to_equations; lia).
  rewrite replace_space.
  rewrite !append_assoc, !append_cons, !append_assoc, !append_cons.
  reflexivity.
Qed.

Lemma parse_month_day_text (m d : Z) (rest : string) :
  0 <= m <= 99 -> 0 <= d <= 99 ->
  parse_month_day (String "-" (two_digits m +:+ String "-" (two_digits d +:+ rest)))
  = Some (m, d, rest).
Proof.
  intros Hm Hd. unfold parse_month_day.
  rewrite read_two_digits by assumption.
  now rewrite read_two_digits by assumption.
Qed.

Lemma parse_time_text (h mi s : Z) (c : ascii) (rest : string) :
  0 <= h <= 99 -> 0 <= mi <= 99 -> 0 <= s <= 99 ->
  c <> "."%char ->
  parse_time (two_digits h +:+ String ":" (two_digits mi
              +:+ String ":" (two_digits s +:+ String c rest)))
  = Some (h, mi, s, 0, String c rest).
Proof.
  intros Hh Hmi Hs Hc. unfold parse_time.
  rewrite read_two_digits by assumption. cbn [expect Ascii.eqb Bool.eqb].
  rewrite read_two_digits by assumption.
  rewrite read_two_digits by assumption.
  destruct c as [[] [] [] [] [] [] [] []]; try reflexivity. congruence.
Qed.

Lemma Date_parse_iso_text (y m d h mi s : Z) :
  0 <= y <= 9999 -> 1 <= m <= 12 -> 1 <= d <= 31 ->
  0 <= h <= 23 -> 0 <= mi <= 59 -> 0 <= s <= 59 ->
  Date_parse (iso_text y m d h mi s)
  = TimeClip (MakeDate (MakeDay y (m - 1) d) (MakeTime h mi s 0)
              - -420 * msPerMinute).
Proof.
  intros Hy Hm Hd Hh Hmi Hs. unfold Date_parse, iso_text.
  rewrite parse_year_four by assumption.
  rewrite parse_month_day_text by lia.
  assert (Hvd : valid_date m d = true).
  { unfold valid_date. rewrite !andb_true_iff, !Z.leb_le. lia. }
  rewrite Hvd.
  change "-07:00" with (String "-" "07:00").
  rewrite parse_time_text by (lia || discriminate).
  assert (Hvt : valid_time h mi s 0 = true).
  { unfold valid_time. rewrite orb_true_iff, !andb_true_iff, !Z.leb_le. lia. }
  rewrite Hvt. reflexivity.
Qed.

Lemma in_upto (n z : Z) : 0 <= z < n -> In z (upto n).
Proof.
  intros Hz. unfold upto. apply in_map_iff. exists (Z.to_nat z).
  split; [lia|]. apply in_seq. lia.
Qed.

Lemma padStart_table :
  forallb (fun n => String.eqb (padStart (Z_toString n) 2 "0") (two_digits n))
          (upto 100) = true.
Proof. vm_compute. reflexivity. Qed.

Lemma padStart_two_digits (n : Z) :
  0 <= n <= 99 -> padStart (Z_toString n) 2 "0" = two_digits n.
Proof.
  intros Hn. apply String.eqb_eq.
  apply (proj1 (forallb_forall _ _) padStart_table). apply in_upto. lia.
Qed.

Lemma year_table :
  forallb (fun n => String.eqb (Z_toString (1000 + n)) (four_digits (1000 + n)))
          (upto 9000) = true.
Proof. vm_compute. reflexivity. Qed.

Lemma Z_toString_four_digits (y : Z) :
  1000 <= y <= 9999 -> Z_toString y = four_digits y.
Proof.
  intros Hy. apply String.eqb_eq.
  replace y with (1000 + (y - 1000)) by lia.
  apply (proj1 (forallb_forall _ _) year_table (y - 1000)). apply in_upto. lia.
Qed.

(** The Time Normalizer on a well-formed timestamp: the date and the time
    seven hours later, rolled over the end of the day, the month and the
    year, without the seconds. *)
Theorem convertMountainTimeToUTC_shift (y m d h mi s : Z) :
  0 <= y <= 9999 -> valid_day y m d ->
  0 <= h <= 23 -> 0 <= mi <= 59 -> 0 <= s <= 59 ->
  let '(y', m', d', h') := add_seven_hours y m d h in
  convertMountainTimeToUTC (VStr (timestamp y m d h mi s))
  = Ok (utc_text_plain_year y' m' d' h' mi).
Proof.
  intros Hy Hv Hh Hmi Hs.
  pose proof (shifted_components y m d h mi s Hv Hh Hmi Hs) as Hc.
  pose proof (days_in_month_bounds y m) as Hdim.
  cbv zeta in Hc.
  unfold convertMountainTimeToUTC. cbn [on_string bind].
  rewrite replace_timestamp by (destruct Hv; lia).
  unfold new_Date. rewrite Date_parse_iso_text by (destruct Hv; lia).
  rewrite shifted_in_range by assumption.
  destruct (add_seven_hours y m d h) as [[[y' m'] d'] h'].
  destruct Hc as (Hy' & Hm' & Hd' & Hh' & Hmi' & Hmr & Hdr).
  unfold getUTCFullYear, getUTCMonth, getUTCDate, getUTCHours, getUTCMinutes.
  cbn [date_getter number_add number_toString].
  rewrite Hy', Hm', Hd', Hh', Hmi'.
  replace (m' - 1 + 1) with m' by lia.
  assert (Hhr : 0 <= h' <= 23).
  { rewrite <- Hh'. unfold HourFromTime.
    pose proof (Z.mod_pos_bound
      ((MakeDate (MakeDay y (m - 1) d) (MakeTime h mi s 0) + 420 * msPerMinute)
       / msPerHour) 24). lia. }
  rewrite !padStart_two_digits by lia.
  reflexivity.
Qed.

(** With a year that [ToString] writes in four digits, the result has the
    form [YYYY-MM-DD HH:mm UTC]. *)
Corollary convertMountainTimeToUTC_shift_four_digits (y m d h mi s : Z) :
  0 <= y <= 9999 -> valid_day y m d ->
  0 <= h <= 23 -> 0 <= mi <= 59 -> 0 <= s <= 59 ->
  let '(y', m', d', h') := add_seven_hours y m d h in
  1000 <= y' <= 9999 ->
  convertMountainTimeToUTC (VStr (timestamp y m d h mi s))
  = Ok (utc_text y' m' d' h' mi).
Proof.
  intros Hy Hv Hh Hmi Hs.
  pose proof (convertMountainTimeToUTC_shift y m d h mi s Hy Hv Hh Hmi Hs) as H.
  destruct (add_seven_hours y m d h) as [[[y' m'] d'] h'].
  intros Hy'. rewrite H. unfold utc_text_plain_year, utc_text.
  now rewrite Z_toString_four_digits.
Qed.

(** The timestamps of the theorem have the shape [YYYY-MM-DD HH:mm:ss]. *)
Lemma is_digit_char (d : Z) : 0 <= d <= 9 -> is_digit (digit_char d) = true.
Proof. intros Hd. unfold is_digit. now rewrite digit_of_char. Qed.

Lemma timestamp_shape (y m d h mi s : Z) :
  0 <= y <= 9999 -> 0 <= m <= 99 -> 0 <= d <= 99 ->
  0 <= h <= 99 -> 0 <= mi <= 99 -> 0 <= s <= 99 ->
  is_timestamp_shape (timestamp y m d h mi s) = true.
Proof.
  intros Hy Hm Hd Hh Hmi Hs.
  unfold is_timestamp_shape.
  cbv beta iota delta [timestamp four_digits two_digits String.append].
  cbn [matches_shape Ascii.eqb Bool.eqb andb].
  rewrite !is_digit_char by (Z.div_mod_to_equations; lia).
  reflexivity.
Qed.

(** The example of the specification. *)
Example normalize_example :
  timestamp 2024 1 15 10 0 0 = "2024-01-15 10:00:00"
  /\ convertMountainTimeToUTC (VStr "2024-01-15 10:00:00") = Ok "2024-01-15 17:00 UTC".
Proof. split; reflexivity. Qed.

Example normalize_rolls_over :
  convertMountainTimeToUTC (VStr "2024-02-28 17:00:00") = Ok "2024-02-29 00:00 UTC"
  /\ convertMountainTimeToUTC (VStr "2023-02-28 17:00:00") = Ok "2023-03-01 00:00 UTC"
  /\ convertMountainTimeToUTC (VStr "2024-12-31 23:59:59") = Ok "2025-01-01 06:59 UTC".
Proof. repeat split; reflexivity. Qed.

(** C3. On the well-formed timestamp [0999-06-15 10:00:00] the Time
    Normalizer answers [999-06-15 17:00 UTC], where the instant seven hours
    later in the form [YYYY-MM-DD HH:mm UTC] is [0999-06-15 17:00 UTC]: the
    year is written without padding, unlike the month, the day, the hours
    and the minutes. A year before 1000 thus comes out with fewer than four
    digits, and the last seven hours of 9999 with five. For every other
    well-formed timestamp the claim holds, by
    [convertMountainTimeToUTC_shift_four_digits]. *)
Theorem year_written_without_padding :
  timestamp 999 6 15 10 0 0 = "0999-06-15 10:00:00"
  /\ add_seven_hours 999 6 15 10 = (999, 6, 15, 17)
  /\ utc_text 999 6 15 17 0 = "0999-06-15 17:00 UTC"
  /\ convertMountainTimeToUTC (VStr "0999-06-15 10:00:00") = Ok "999-06-15 17:00 UTC"
  /\ convertMountainTimeToUTC (VStr "9999-12-31 17:00:00") = Ok "10000-01-01 00:00 UTC".
Proof. repeat split; reflexivity. Qed.

(** C4 fails as stated: a text that is no timestamp, and one with a month
    that is no number, are answered with a string and not with an error. *)
Example month_out_of_range :
  is_timestamp_shape "2024-13-01 10:00:00" = true
  /\ convertMountainTimeToUTC (VStr "2024-13-01 10:00:00")
     = Ok "NaN-NaN-NaN NaN:NaN UTC".
Proof. split; reflexivity. Qed.

(** Neither text is a timestamp, and both are answered with the text of an
    invalid date; nothing is thrown. *)
Lemma malformed_timestamp_not_rejected :
  is_timestamp_shape "not a date" = false
  /\ convertMountainTimeToUTC (VStr "not a date") = Ok "NaN-NaN-NaN NaN:NaN UTC"
  /\ is_timestamp_shape "2024-0x-15 10:00:00" = false
  /\ convertMountainTimeToUTC (VStr "2024-0x-15 10:00:00")
     = Ok "NaN-NaN-NaN NaN:NaN UTC"
  /\ forall e, convertMountainTimeToUTC (VStr "not a date") <> Throw e.
Proof. repeat split; try reflexivity. intros e. discriminate. Qed.

End Timestamps.

(** ** The theorems at work on the example rows *)

Lemma convertRow_buy_witness :
  sample_row !! "Order Type" = Some "Buy"
  /\ sample_row !! "Order Date" = Some "2024-01-15 10:00:00"
  /\ includes (toLowerCase "Buy") "buy" = true
  /\ exists target,
       convertRow sample_row = Ok target
       /\ get_prop target "Label" = VStr "Buy"
       /\ get_prop target "Received Amount" = row_get sample_row "Crypto Amount"
       /\ get_prop target "Received Currency" = row_get sample_row "Crypto Code"
       /\ get_prop target "Sent Currency"
          = VStr (text_or_empty (sample_row !! "Fiat Code"))
       /\ get_prop target "Sent Amount"
          = VStr (amount_text (sample_row !! "Fiat Amount")).
Proof.
  repeat (split; [reflexivity|]).
  apply (convertRow_buy sample_row "Buy" "2024-01-15 10:00:00"); reflexivity.
Defined.

Lemma convertRow_sell_witness :
  sell_row !! "Order Type" = Some "Sell"
  /\ sell_row !! "Order Date" = Some "2024-01-15 10:00:00"
  /\ includes (toLowerCase "Sell") "sell" = true
  /\ includes (toLowerCase "Sell") "buy" = false
  /\ exists target,
       convertRow sell_row = Ok target
       /\ get_prop target "Label" = VStr "Sell"
       /\ get_prop target "Sent Amount" = row_get sell_row "Crypto Amount"
       /\ get_prop target "Sent Currency" = row_get sell_row "Crypto Code"
       /\ get_prop target "Received Currency"
          = VStr (text_or_empty (sell_row !! "Fiat Code"))
       /\ get_prop target "Received Amount"
          = VStr (amount_text (sell_row !! "Fiat Amount")).
Proof.
  repeat (split; [reflexivity|]).
  apply (convertRow_sell sell_row "Sell" "2024-01-15 10:00:00"); reflexivity.
Defined.

Lemma convertRow_common_witness :
  sample_row !! "Order Type" = Some "Buy"
  /\ sample_row !! "Order Date" = Some "2024-01-15 10:00:00"
  /\ exists target label,
       convertRow sample_row = Ok target
       /\ get_prop target "Label" = VStr label
       /\ get_prop target "Fee Currency" = VStr "BTC".
Proof.
  repeat (split; [reflexivity|]).
  destruct (convertRow_common sample_row "Buy" "2024-01-15 10:00:00"
              eq_refl eq_refl)
    as (target & label & Hok & Hlabel & _ & _ & _ & Hfee & _).
  exists target, label. repeat split; assumption.
Defined.

Lemma filteredData_subsequence_witness :
  Forall has_order_type [sample_row; swap_row; sell_row]
  /\ exists out,
       filteredData [sample_row; swap_row; sell_row] = Ok out
       /\ out = [sample_row; sell_row].
Proof.
  assert (H : Forall has_order_type [sample_row; swap_row; sell_row])
    by (repeat constructor; eexists; reflexivity).
  split; [exact H|].
  destruct (filteredData_subsequence _ H) as (out & Hok & Hout & _).
  exists out. split; [exact Hok|]. rewrite Hout. reflexivity.
Defined.

Lemma cell_quoting_witness :
  get_prop {[ "Description" := VStr tom_bones ]} "Description" = VStr tom_bones
  /\ join_item (cell {[ "Description" := VStr tom_bones ]} "Description")
     = tom_bones_quoted.
Proof.
  assert (H : get_prop {[ "Description" := VStr tom_bones ]} "Description"
              = VStr tom_bones) by reflexivity.
  split; [exact H|].
  exact (proj2 (proj2 (proj2 (cell_quoting _ _ _ H))) eq_refl).
Defined.

Lemma missing_key_as_empty_witness :
  "Miner Fee" <> "Order Type" /\ "Miner Fee" <> "Order Date"
  /\ convert [delete "Miner Fee" sample_row]
     = convert [<["Miner Fee" := ""]> sample_row].
Proof.
  split; [discriminate|]. split; [discriminate|].
  apply (missing_key_as_empty sample_row "Miner Fee"); discriminate.
Defined.

(** * Further properties of the conversion *)

(** ** When the mapper throws, and what its records hold *)

Lemma convertRow_ok (row : SourceRow) :
  is_Some (row !! "Order Type") -> is_Some (row !! "Order Date") ->
  exists target, convertRow row = Ok target.
Proof.
  intros [orderType Htype] [orderDate Hdate].
  open_convertRow Htype Hdate date Hd.
  destruct (includes (toLowerCase orderType) "buy");
    [|destruct (includes (toLowerCase orderType) "sell")]; now eexists.
Qed.

Lemma convertRow_incomplete (row : SourceRow) :
  row !! "Order Type" = None \/ row !! "Order Date" = None ->
  convertRow row = Throw TypeError.
Proof.
  intros Hmiss. unfold convertRow, row_get.
  destruct (row !! "Order Date") as [orderDate|] eqn:Hdate; [|reflexivity].
  destruct Hmiss as [Htype|Hnone]; [|discriminate].
  destruct (convertMountainTimeToUTC_string orderDate) as [date Hd].
  rewrite Hd, Htype. reflexivity.
Qed.

Lemma convertRow_ok_fields (row : SourceRow) (target : jsobject) :
  convertRow row = Ok target ->
  exists orderType orderDate,
    row !! "Order Type" = Some orderType /\ row !! "Order Date" = Some orderDate.
Proof.
  intros Hok.
  destruct (row !! "Order Type") as [orderType|] eqn:Htype;
    [|rewrite convertRow_incomplete in Hok; [discriminate|now left]].
  destruct (row !! "Order Date") as [orderDate|] eqn:Hdate;
    [|rewrite convertRow_incomplete in Hok; [discriminate|now right]].
  now exists orderType, orderDate.
Qed.

(** X2. The mapper throws exactly on a row that lacks its order type or its
    order date: these two are the fields it calls a method on. Every other
    field may be missing. *)
Theorem convertRow_throws_iff (row : SourceRow) :
  convertRow row = Throw TypeError
  <-> row !! "Order Type" = None \/ row !! "Order Date" = None.
Proof.
  split; [|apply convertRow_incomplete].
  intros Hthrow.
  destruct (row !! "Order Type") as [orderType|] eqn:Htype; [|now left].
  destruct (row !! "Order Date") as [orderDate|] eqn:Hdate; [|now right].
  destruct (convertRow_ok row) as [target Hok].
  - rewrite Htype. now eexists.
  - rewrite Hdate. now eexists.
  - rewrite Hok in Hthrow. discriminate.
Qed.

Lemma convertRow_label (row : SourceRow) (target : jsobject) :
  convertRow row = Ok target ->
  exists orderType,
    row !! "Order Type" = Some orderType
    /\ get_prop target "Label" = VStr (label_of orderType).
Proof.
  intros Hok.
  destruct (convertRow_ok_fields _ _ Hok) as (orderType & orderDate & Htype & Hdate).
  exists orderType. split; [assumption|].
  revert Hok. open_convertRow Htype Hdate date Hd. unfold label_of.
  destruct (includes (toLowerCase orderType) "buy");
    [|destruct (includes (toLowerCase orderType) "sell")];
    intros [= <-]; reflexivity.
Qed.

(** X3. Every record the mapper returns has the twelve columns of the header
    and no other; when the row has its crypto amount and crypto code, each
    of them holds a string, as [KoinlyRow] declares. *)
Theorem convertRow_columns (row : SourceRow) (target : jsobject) :
  convertRow row = Ok target ->
  dom target = list_to_set headers
  /\ (is_Some (row !! "Crypto Amount") -> is_Some (row !! "Crypto Code") ->
      Forall (fun header => exists s, get_prop target header = VStr s) headers).
Proof.
  intros Hok.
  destruct (convertRow_ok_fields _ _ Hok) as (orderType & orderDate & Htype & Hdate).
  revert Hok. open_convertRow Htype Hdate date Hd.
  destruct (includes (toLowerCase orderType) "buy");
    [|destruct (includes (toLowerCase orderType) "sell")];
    intros [= <-].
  all: split;
    [rewrite !dom_insert_L, dom_empty_L; reflexivity|].
  all: intros [amount Ha] [code Hc];
    rewrite (row_get_Some _ _ _ Ha), (row_get_Some _ _ _ Hc);
    repeat constructor; eexists; reflexivity.
Qed.

(** ** When the filter and the conversion throw *)

Lemma filteredData_ok_inv (data out : list SourceRow) :
  filteredData data = Ok out -> Forall has_order_type data.
Proof.
  unfold filteredData. revert out.
  induction data as [|row data IH]; intros out Hok; [constructor|].
  cbn [filterM] in Hok. unfold not_swap at 1, row_get in Hok.
  destruct (row !! "Order Type") as [orderType|] eqn:Hrow; [|discriminate].
  cbn [on_string bind] in Hok.
  destruct (filterM not_swap data) as [rest|e] eqn:Hrest; [|discriminate].
  constructor; [unfold has_order_type; rewrite Hrow; now eexists|].
  now apply (IH rest).
Qed.

Lemma has_order_type_or_missing (data : list SourceRow) :
  Forall has_order_type data
  \/ Exists (fun row => row !! "Order Type" = None) data.
Proof.
  induction data as [|row data [IH|IH]].
  - left. constructor.
  - destruct (row !! "Order Type") as [orderType|] eqn:Hrow.
    + left. constructor; [unfold has_order_type; rewrite Hrow; now eexists|assumption].
    + right. now constructor.
  - right. now constructor 2.
Qed.

(** X5. The filter throws exactly when some row, wherever it stands, lacks its
    order type; on every other input it returns. *)
Theorem filteredData_throws_iff (data : list SourceRow) :
  filteredData data = Throw TypeError
  <-> Exists (fun row => row !! "Order Type" = None) data.
Proof.
  split; [|apply filteredData_throws].
  intros Hthrow.
  destruct (has_order_type_or_missing data) as [Hall|Hex]; [|assumption].
  rewrite (filteredData_filter _ Hall) in Hthrow. discriminate.
Qed.

Lemma mapM_ok {A B : Type} (f : A -> result B) (xs : list A) (ys : list B) :
  mapM f xs = Ok ys <-> Forall2 (fun x y => f x = Ok y) xs ys.
Proof.
  revert ys. induction xs as [|x xs IH]; intros ys; cbn [mapM].
  - split; [intros [= <-]; constructor|intros H; now inversion H].
  - split.
    + destruct (f x) as [y|e] eqn:Hx; [|discriminate]. cbn [bind].
      destruct (mapM f xs) as [ys'|e] eqn:Hxs; [|discriminate]. cbn [bind].
      intros [= <-]. constructor; [assumption|]. now apply IH.
    + intros H. inversion H as [|? y ? ys' Hx Hrest]; subst.
      rewrite Hx. cbn [bind]. rewrite (proj2 (IH ys') Hrest). reflexivity.
Qed.

Lemma mapM_throws {A B : Type} (f : A -> result B) (xs : list A) :
  mapM f xs = Throw TypeError <-> Exists (fun x => f x = Throw TypeError) xs.
Proof.
  induction xs as [|x xs IH]; cbn [mapM].
  - split; [discriminate|intros H; inversion H].
  - destruct (f x) as [y|[]] eqn:Hx; cbn [bind].
    + destruct (mapM f xs) as [ys|[]] eqn:Hxs; cbn [bind].
      * split; [discriminate|]. intros H.
        inversion H as [? ? Hnow|? ? Hlater]; subst; [congruence|].
        apply IH in Hlater. discriminate.
      * split; [intros _; constructor 2; now apply IH|reflexivity].
    + split; [intros _; now constructor|reflexivity].
Qed.

Lemma convertedRows_kept (data : list SourceRow) :
  Forall has_order_type data ->
  convertedRows data = mapM convertRow (kept_rows data).
Proof.
  intros Hall. unfold convertedRows. now rewrite (filteredData_filter _ Hall).
Qed.

Lemma convertedRows_ok_inv (data : list SourceRow) (targets : list jsobject) :
  convertedRows data = Ok targets -> Forall has_order_type data.
Proof.
  unfold convertedRows.
  destruct (filteredData data) as [kept|e] eqn:Hkept; [|discriminate].
  intros _. now apply (filteredData_ok_inv _ kept).
Qed.

(** X6. The conversion returns exactly when every row has its order type and
    every row that is kept has its order date; its records are then the
    records of the kept rows, one each, in their order. *)
Theorem convertedRows_ok_iff (data : list SourceRow) (targets : list jsobject) :
  convertedRows data = Ok targets
  <-> Forall has_order_type data
      /\ Forall2 (fun row target => convertRow row = Ok target)
                 (kept_rows data) targets.
Proof.
  unfold convertedRows, kept_rows. split.
  - destruct (filteredData data) as [kept|e] eqn:Hkept; [|discriminate].
    cbn [bind]. intros Hmap.
    pose proof (filteredData_ok_inv _ _ Hkept) as Hall.
    rewrite (filteredData_filter _ Hall) in Hkept. injection Hkept as <-.
    split; [assumption|]. now apply mapM_ok.
  - intros [Hall Hrows]. rewrite (filteredData_filter _ Hall). cbn [bind].
    now apply mapM_ok.
Qed.

(** X7. The whole conversion throws exactly when some row lacks its order type,
    or some row that is not a swap row lacks its order date. A swap row may
    lack anything but its order type. *)
Theorem convert_throws_iff (data : list SourceRow) :
  convert data = Throw TypeError
  <-> Exists (fun row => row !! "Order Type" = None) data
      \/ Exists (fun row => is_swap row = false /\ row !! "Order Date" = None) data.
Proof.
  assert (Hconv : convert data = Throw TypeError
                  <-> convertedRows data = Throw TypeError).
  { unfold convert. destruct (convertedRows data) as [rows|[]]; cbn [bind];
      split; (discriminate || reflexivity). }
  rewrite Hconv. unfold convertedRows.
  destruct (has_order_type_or_missing data) as [Hall|Hex].
  - rewrite (filteredData_filter _ Hall). cbn [bind].
    rewrite mapM_throws, !Exists_exists. split.
    + intros (row & Hin & Hthrow).
      apply list_elem_of_In, filter_In in Hin as [Hin Hkeep].
      apply list_elem_of_In in Hin. apply negb_true_iff in Hkeep.
      destruct (row !! "Order Type") as [orderType|] eqn:Htype;
        [|left; now exists row].
      destruct (row !! "Order Date") as [orderDate|] eqn:Hdate;
        [|right; now exists row].
      destruct (convertRow_ok row) as [target Hok];
        [rewrite Htype; now eexists|rewrite Hdate; now eexists|].
      rewrite Hok in Hthrow. discriminate.
    + intros [(row & Hin & Htype)|(row & Hin & Hkeep & Hdate)].
      * exfalso. rewrite Forall_forall in Hall.
        destruct (Hall row Hin) as [orderType Hsome]. congruence.
      * exists row. split; [|apply convertRow_incomplete; now right].
        apply list_elem_of_In, filter_In.
        split; [now apply list_elem_of_In|now apply negb_true_iff].
  - rewrite (filteredData_throws _ Hex). cbn [bind]. tauto.
Qed.

(** ** What the conversion keeps and what it drops *)

Lemma kept_rows_not_swap (data : list SourceRow) :
  Forall (fun row => is_swap row = false) (kept_rows data).
Proof.
  apply Forall_forall. intros row Hin.
  apply list_elem_of_In, filter_In in Hin as [_ Hkeep].
  now apply negb_true_iff.
Qed.

Lemma kept_rows_have_order_type (data : list SourceRow) :
  Forall has_order_type data -> Forall has_order_type (kept_rows data).
Proof.
  rewrite !Forall_forall. intros Hall row Hin. apply Hall.
  apply list_elem_of_In, filter_In in Hin as [Hin _]. now apply list_elem_of_In.
Qed.

Lemma kept_rows_idempotent (data : list SourceRow) :
  kept_rows (kept_rows data) = kept_rows data.
Proof.
  unfold kept_rows. induction data as [|row data IH]; [reflexivity|].
  cbn [List.filter]. destruct (negb (is_swap row)) eqn:Hkeep; [|exact IH].
  cbn [List.filter]. now rewrite Hkeep, IH.
Qed.

Lemma kept_rows_app (a b : list SourceRow) :
  kept_rows (a ++ b) = kept_rows a ++ kept_rows b.
Proof.
  unfold kept_rows. induction a as [|row a IH]; [reflexivity|].
  cbn [app List.filter]. rewrite IH. now destruct (negb (is_swap row)).
Qed.

Lemma label_of_not_swap (orderType : string) :
  includes (toLowerCase orderType) "swap" = false ->
  includes (toLowerCase (label_of orderType)) "swap" = false.
Proof.
  intros Hno. unfold label_of.
  destruct (includes (toLowerCase orderType) "buy"); [reflexivity|].
  destruct (includes (toLowerCase orderType) "sell"); [reflexivity|assumption].
Qed.

(** X8. No record of the conversion is labelled as a swap: the label is Buy,
    Sell, or an order type that passed the filter. *)
Theorem convertedRows_no_swap_label (data : list SourceRow) (targets : list jsobject) :
  convertedRows data = Ok targets ->
  Forall (fun target =>
            exists label,
              get_prop target "Label" = VStr label
              /\ includes (toLowerCase label) "swap" = false)
         targets.
Proof.
  intros Hok.
  pose proof (convertedRows_ok_inv _ _ Hok) as Hall.
  rewrite (convertedRows_kept _ Hall) in Hok. apply mapM_ok in Hok.
  pose proof (kept_rows_not_swap data) as Hkept.
  induction Hok as [|row target rows targets Hrow _ IH]; [constructor|].
  inversion Hkept as [|? ? Hnot Hrest]; subst.
  constructor; [|now apply IH].
  destruct (convertRow_label _ _ Hrow) as (orderType & Htype & Hlabel).
  exists (label_of orderType). split; [assumption|].
  apply label_of_not_swap. unfold is_swap in Hnot. now rewrite Htype in Hnot.
Qed.

Lemma mapM_app {A B : Type} (f : A -> result B) (xs ys : list A)
    (txs tys : list B) :
  mapM f xs = Ok txs -> mapM f ys = Ok tys -> mapM f (xs ++ ys) = Ok (txs ++ tys).
Proof.
  rewrite !mapM_ok. apply Forall2_app.
Qed.

Lemma generateKoinlyCsv_app (ta tb : list jsobject) :
  generateKoinlyCsv (ta ++ tb)
  = generateKoinlyCsv ta
    +:+ String.concat "" (map (fun t => newline +:+ row_line t) tb).
Proof.
  rewrite !generateKoinlyCsv_lines, !concat_lines, !map_map, map_app.
  now rewrite concat_empty_app, append_assoc.
Qed.

(** X9. Rows are converted one by one: the document of two inputs put end to end
    is the document of the first, followed by the lines of the second. *)
Theorem convert_app (a b : list SourceRow) (csv : string) (tb : list jsobject) :
  convert a = Ok csv ->
  convertedRows b = Ok tb ->
  convert (a ++ b)
  = Ok (csv +:+ String.concat "" (map (fun t => newline +:+ row_line t) tb)).
Proof.
  unfold convert at 1.
  destruct (convertedRows a) as [ta|e] eqn:Ha; [|discriminate].
  cbn [bind]. intros [= <-] Hb.
  assert (Hab : convertedRows (a ++ b) = Ok (ta ++ tb)).
  { pose proof (convertedRows_ok_inv _ _ Ha) as Halla.
    pose proof (convertedRows_ok_inv _ _ Hb) as Hallb.
    rewrite convertedRows_kept in Ha, Hb by assumption.
    rewrite convertedRows_kept by (apply Forall_app; now split).
    rewrite kept_rows_app. now apply mapM_app. }
  unfold convert. rewrite Hab. cbn [bind]. now rewrite generateKoinlyCsv_app.
Qed.

(** X10. Swap rows leave no trace: with or without them the document is the
    same, whatever else they hold or lack; an input of swap rows alone gives
    the header line alone. *)
Theorem convert_without_swaps (data : list SourceRow) :
  Forall has_order_type data ->
  convert data = convert (kept_rows data)
  /\ (Forall (fun row => is_swap row = true) data -> convert data = Ok header_line).
Proof.
  intros Hall.
  assert (Hsame : convertedRows data = convertedRows (kept_rows data)).
  { rewrite !convertedRows_kept, kept_rows_idempotent;
      [reflexivity|now apply kept_rows_have_order_type|assumption]. }
  split; [unfold convert; now rewrite Hsame|].
  intros Hswaps.
  assert (Hnone : kept_rows data = []).
  { clear Hall Hsame. induction Hswaps as [|row rows Hrow _ IH]; [reflexivity|].
    unfold kept_rows. cbn [List.filter]. rewrite Hrow. exact IH. }
  unfold convert. rewrite convertedRows_kept, Hnone by assumption. reflexivity.
Qed.

(** ** Reading a record line back *)

Lemma read_record_nonempty (st : reader_state) (s : string) :
  exists f fs, read_record st s = f :: fs.
Proof.
  revert st. induction s as [|c s IH]; intros st; [now eexists _, _|].
  cbn [read_record].
  destruct st; repeat destruct (Ascii.eqb c _);
    try (now eexists _, _);
    match goal with
    | |- context [read_record ?st' s] =>
        destruct (IH st') as (f & fs & ->); now eexists _, _
    end.
Qed.

Lemma push_char_prepend (c : ascii) (s : string) (fields : list string) :
  push_char c (prepend s fields) = prepend (String c s) fields.
Proof. now destruct fields. Qed.

Lemma prepend_empty (st : reader_state) (s : string) :
  prepend "" (read_record st s) = read_record st s.
Proof. now destruct (read_record_nonempty st s) as (f & fs & ->). Qed.

Lemma read_raw (s tail : string) :
  ~ contains_char s "," ->
  read_record InRaw (s +:+ tail) = prepend s (read_record InRaw tail).
Proof.
  unfold contains_char. induction s as [|c s IH]; intros Hno.
  - change ("" +:+ tail) with tail. now rewrite prepend_empty.
  - cbn [list_ascii_of_string In] in Hno.
    change (String c s +:+ tail) with (String c (s +:+ tail)).
    cbn [read_record].
    destruct (Ascii.eqb_spec c ",") as [->|_]; [tauto|].
    rewrite IH by tauto. apply push_char_prepend.
Qed.

Lemma read_quoted_code (s tail : string) :
  read_record InQuoted
    (replace_global s dquote (quote_str +:+ quote_str) +:+ String dquote tail)
  = prepend s (read_record QuoteSeen tail).
Proof.
  induction s as [|c s IH].
  - cbn. now rewrite prepend_empty.
  - cbn [replace_global].
    destruct (Ascii.eqb_spec c dquote) as [->|Hc].
    + rewrite append_assoc.
      change ((quote_str +:+ quote_str) +:+ ?r) with (String dquote (String dquote r)).
      change (read_record InQuoted (String dquote (String dquote ?r)))
        with (push_char dquote (read_record InQuoted r)).
      rewrite IH. apply push_char_prepend.
    + change (String c ?x +:+ ?y) with (String c (x +:+ y)).
      cbn [read_record]. rewrite (proj2 (Ascii.eqb_neq c dquote) Hc).
      rewrite IH. apply push_char_prepend.
Qed.

Lemma read_quoted (s tail : string) :
  read_record FieldStart (quoted_form s +:+ tail)
  = prepend s (read_record QuoteSeen tail).
Proof.
  rewrite <- quoted_form_code, <- read_quoted_code.
  rewrite !append_assoc. reflexivity.
Qed.

Lemma read_field_end (st : reader_state) (tail : string) :
  field_end tail -> st <> InQuoted ->
  read_record st tail = read_record FieldStart tail.
Proof.
  intros [->|[more ->]] Hst; [reflexivity|]. now destruct st.
Qed.

Lemma read_written (t tail : string) :
  field_end tail ->
  read_record FieldStart (written_form t +:+ tail)
  = prepend t (read_record FieldStart tail).
Proof.
  intros Htail. unfold written_form.
  destruct (includes t "," || includes t quote_str) eqn:Htest.
  - rewrite read_quoted. now rewrite read_field_end.
  - assert (Hno : ~ needs_quotes t).
    { rewrite <- needs_quotes_test, Htest. discriminate. }
    unfold needs_quotes in Hno.
    destruct t as [|c t].
    + change ("" +:+ tail) with tail. now rewrite prepend_empty.
    + unfold contains_char in Hno. cbn [list_ascii_of_string In] in Hno.
      change (String c t +:+ tail) with (String c (t +:+ tail)).
      cbn [read_record].
      destruct (Ascii.eqb_spec c dquote) as [->|_]; [tauto|].
      destruct (Ascii.eqb_spec c ",") as [->|_]; [tauto|].
      rewrite read_raw by (unfold contains_char; tauto).
      rewrite push_char_prepend. now rewrite (read_field_end InRaw).
Qed.

Lemma read_written_fields (t : string) (ts : list string) :
  read_record FieldStart (String.concat "," (map written_form (t :: ts)))
  = t :: ts.
Proof.
  revert t. induction ts as [|t' ts IH]; intros t.
  - cbn [map String.concat].
    rewrite <- (append_empty_r (written_form t)).
    rewrite read_written by now left.
    cbn [read_record prepend]. now rewrite append_empty_r.
  - change (String.concat "," (map written_form (t :: t' :: ts)))
      with (written_form t
            +:+ String "," (String.concat "," (map written_form (t' :: ts)))).
    rewrite read_written by (right; now eexists).
    change (read_record FieldStart (String "," ?more))
      with ("" :: read_record FieldStart more).
    rewrite IH. cbn [prepend]. now rewrite append_empty_r.
Qed.

Lemma uint_digits (d : Decimal.uint) (c : ascii) :
  In c (list_ascii_of_string (NilEmpty.string_of_uint d)) -> is_digit c = true.
Proof.
  induction d as [|d IH|d IH|d IH|d IH|d IH|d IH|d IH|d IH|d IH|d IH];
    cbn [NilEmpty.string_of_uint list_ascii_of_string In];
    [tauto|intros [<-|H]; [reflexivity|now apply IH]..].
Qed.

Lemma Z_toString_chars (z : Z) (c : ascii) :
  contains_char (Z_toString z) c -> is_digit c = true \/ c = "-"%char.
Proof.
  unfold contains_char, Z_toString, NilZero.string_of_int.
  assert (Huint : forall d, In c (list_ascii_of_string (NilZero.string_of_uint d))
                            -> is_digit c = true).
  { intros d. destruct d; try apply uint_digits.
    cbn. intros [<-|[]]. reflexivity. }
  destruct (Z.to_int z) as [d|d].
  - intros H. left. now apply (Huint d).
  - cbn [list_ascii_of_string In]. intros [<-|H]; [now right|].
    left. now apply (Huint d).
Qed.

Lemma written_form_plain (t : string) :
  ~ needs_quotes t -> written_form t = t.
Proof.
  intros Hno. unfold written_form.
  destruct (includes t "," || includes t quote_str) eqn:Htest; [|reflexivity].
  apply needs_quotes_test in Htest. tauto.
Qed.

Lemma Z_toString_plain (z : Z) : ~ needs_quotes (Z_toString z).
Proof.
  intros [H|H]; apply Z_toString_chars in H as [H|H]; discriminate.
Qed.

(** Every cell is written as the written form of its text. *)
Lemma join_item_cell (row : jsobject) (header : string) :
  join_item (cell row header) = written_form (cell_text row header).
Proof.
  unfold cell, cell_text.
  destruct (get_prop row header) as [| |[|]|[|z]|s]; cbn [nullish];
    try reflexivity.
  - cbn [join_item ToString number_toString].
    now rewrite written_form_plain by apply Z_toString_plain.
  - unfold written_form. rewrite quoted_form_code.
    cbn [join_item ToString].
    now destruct (includes s "," || includes s quote_str).
Qed.

Lemma join_concat (xs : list jsval) (sep : string) :
  join xs sep = String.concat sep (map join_item xs).
Proof.
  induction xs as [|x xs IH]; [reflexivity|].
  destruct xs as [|x' xs]; [reflexivity|].
  cbn [map join String.concat] in *. now rewrite IH.
Qed.

Lemma row_line_written (row : jsobject) :
  row_line row
  = String.concat "," (map written_form (map (cell_text row) headers)).
Proof.
  unfold row_line, rowValues. rewrite join_concat, !map_map.
  f_equal. apply map_ext. intros header. apply join_item_cell.
Qed.

(** On the rows of the conversion core, a reader of CSV records gets the
    twelve field texts back from the line of a record; so two records with
    the same line have the same field texts. *)
Lemma jsobject_line_read_back (row other : jsobject) :
  read_record FieldStart (row_line row) = map (cell_text row) headers
  /\ (row_line row = row_line other ->
      Forall (fun header => cell_text row header = cell_text other header) headers).
Proof.
  assert (Hread : forall r, read_record FieldStart (row_line r)
                            = map (cell_text r) headers).
  { intros r. rewrite row_line_written. apply read_written_fields. }
  split; [apply Hread|].
  intros Hsame.
  assert (Htexts : map (cell_text row) headers = map (cell_text other) headers)
    by now rewrite <- !Hread, Hsame.
  revert Htexts. generalize headers as hs.
  induction hs as [|h hs IH]; intros Htexts; [constructor|].
  cbn [map] in Htexts. injection Htexts as Hh Hrest.
  constructor; [assumption|now apply IH].
Qed.

(** ** The Time Normalizer on every string *)

Module NormalizerFacts.

Import DateModel DateParse Calendar DateFacts Timestamps.
Local Open Scope Z_scope.

Lemma year_search_bracket (fuel : nat) (y0 day : Z) :
  DayFromYear y0 <= day < DayFromYear (y0 + Z.of_nat fuel) ->
  let y := year_search fuel y0 day in
  DayFromYear y <= day < DayFromYear (y + 1).
Proof.
  revert y0. induction fuel as [|fuel IH]; intros y0 Hday; cbn [year_search].
  - replace (y0 + Z.of_nat 0) with y0 in Hday by lia. lia.
  - destruct (Z.leb_spec (DayFromYear (y0 + 1)) day) as [Hnext|Hnext].
    + apply IH. replace (y0 + 1 + Z.of_nat fuel) with (y0 + Z.of_nat (S fuel)) by lia.
      lia.
    + cbv zeta. lia.
Qed.

(** [YearFromDay] is the year of the standard: the one whose first day is
    not after [day] while the first day of the next is. *)
Lemma YearFromDay_bracket (day : Z) :
  DayFromYear (YearFromDay day) <= day < DayFromYear (YearFromDay day + 1).
Proof.
  unfold YearFromDay. apply year_search_bracket.
  rewrite Z2Nat.id by (pose proof (Z.abs_nonneg day); Z.div_mod_to_equations; lia).
  unfold DayFromYear. Z.div_mod_to_equations. lia.
Qed.

Lemma DayWithinYear_range (t : Z) :
  0 <= DayWithinYear t < DaysInYear (YearFromTime t).
Proof.
  unfold DayWithinYear, YearFromTime.
  pose proof (YearFromDay_bracket (Day t)) as H.
  rewrite DayFromYear_next in H. lia.
Qed.

Lemma getters_in_range (t : Z) :
  0 <= MonthFromTime t <= 11 /\ 1 <= DateFromTime t <= 31
  /\ 0 <= HourFromTime t <= 23 /\ 0 <= MinFromTime t <= 59.
Proof.
  pose proof (DayWithinYear_range t) as Hd.
  assert (Hl : DaysInYear (YearFromTime t) = 365 + InLeapYear t
               /\ 0 <= InLeapYear t <= 1).
  { unfold DaysInYear, InLeapYear. destruct (isLeap (YearFromTime t)); lia. }
  destruct Hl as [Hl Hl01]. rewrite Hl in Hd.
  unfold DateFromTime, MonthFromTime, HourFromTime, MinFromTime.
  generalize dependent (DayWithinYear t). intros d Hd.
  generalize dependent (InLeapYear t). intros l _ Hl01 Hd.
  pose proof (Z.mod_pos_bound (t / msPerHour) 24).
  pose proof (Z.mod_pos_bound (t / msPerMinute) 60).
  repeat match goal with
         | |- context [?a <? ?b] => destruct (Z.ltb_spec a b)
         end; lia.
Qed.

(** X13. Whatever the string, the Time Normalizer answers either the text of an
    invalid date, or a year followed by a month from 01 to 12, a day from 01
    to 31, hours from 00 to 23 and minutes from 00 to 59, each of two
    digits. *)
Theorem convertMountainTimeToUTC_layout (s : string) :
  convertMountainTimeToUTC (VStr s) = Ok "NaN-NaN-NaN NaN:NaN UTC"
  \/ exists y m d h mi,
       1 <= m <= 12 /\ 1 <= d <= 31 /\ 0 <= h <= 23 /\ 0 <= mi <= 59
       /\ convertMountainTimeToUTC (VStr s) = Ok (utc_text_plain_year y m d h mi).
Proof.
  unfold convertMountainTimeToUTC. cbn [on_string bind].
  destruct (new_Date (replace s " " "T" +:+ "-07:00")) as [|t]; [now left|].
  right. destruct (getters_in_range t) as (Hm & Hd & Hh & Hmi).
  exists (YearFromTime t), (MonthFromTime t + 1), (DateFromTime t),
    (HourFromTime t), (MinFromTime t).
  repeat (split; [lia|]).
  unfold getUTCFullYear, getUTCMonth, getUTCDate, getUTCHours, getUTCMinutes.
  cbn [date_getter number_add number_toString].
  now rewrite !padStart_two_digits by lia.
Qed.

(** X14. On a well-formed timestamp [YYYY-MM-DD HH:mm:ss] the Time Normalizer
    answers the date and the time seven hours later, rolled over the end of
    the day, the month and the year, with the seconds dropped; the year is
    written as a plain number, which has four digits from 1000 to 9999. *)
Theorem convertMountainTimeToUTC_well_formed (y m d h mi s : Z) :
  0 <= y <= 9999 -> valid_day y m d ->
  0 <= h <= 23 -> 0 <= mi <= 59 -> 0 <= s <= 59 ->
  let input := timestamp y m d h mi s in
  let '(y', m', d', h') := add_seven_hours y m d h in
  is_timestamp_shape input = true
  /\ convertMountainTimeToUTC (VStr input) = Ok (utc_text_plain_year y' m' d' h' mi)
  /\ convertMountainTimeToUTC (VStr input)
     = convertMountainTimeToUTC (VStr (timestamp y m d h mi 0))
  /\ (1000 <= y' <= 9999 ->
      convertMountainTimeToUTC (VStr input) = Ok (utc_text y' m' d' h' mi)).
Proof.
  intros Hy Hv Hh Hmi Hs input.
  pose proof (days_in_month_bounds y m) as Hdim.
  pose proof (convertMountainTimeToUTC_shift y m d h mi s Hy Hv Hh Hmi Hs) as Hshift.
  pose proof (convertMountainTimeToUTC_shift y m d h mi 0 Hy Hv Hh Hmi
                ltac:(lia)) as Hzero.
  destruct (add_seven_hours y m d h) as [[[y' m'] d'] h'].
  split; [apply timestamp_shape; destruct Hv; lia|].
  split; [exact Hshift|]. split; [unfold input; now rewrite Hshift, Hzero|].
  intros Hy'. unfold input. rewrite Hshift.
  unfold utc_text_plain_year, utc_text. now rewrite Z_toString_four_digits.
Qed.

End NormalizerFacts.

(** ** Reading the document back *)

Lemma generateKoinlyCsv_physical_lines (rows : list jsobject) :
  Forall (fun row => ~ contains_char (row_line row) "010") rows ->
  lines_of (generateKoinlyCsv rows) = header_line :: map row_line rows.
Proof.
  intros Hrows.
  rewrite generateKoinlyCsv_lines, concat_lines.
  rewrite lines_of_append by apply header_line_one_line.
  rewrite lines_of_record_lines by (apply Forall_map; exact Hrows).
  destruct rows; cbn [map]; now rewrite append_empty_r.
Qed.

(** X12. When no field holds a line feed, splitting the document at the line
    feeds and reading each line as a CSV record gives the twelve header
    names, then the twelve field texts of each record, in order. *)
Theorem generateKoinlyCsv_read_back (rows : list jsobject) :
  Forall (fun row => ~ contains_char (row_line row) "010") rows ->
  map (read_record FieldStart) (lines_of (generateKoinlyCsv rows))
  = headers :: map (fun row => map (cell_text row) headers) rows.
Proof.
  intros Hrows. rewrite (generateKoinlyCsv_physical_lines _ Hrows).
  cbn [map].
  replace (read_record FieldStart header_line) with headers by reflexivity.
  f_equal. rewrite map_map. apply map_ext. intros row.
  rewrite row_line_written. apply read_written_fields.
Qed.

(** ** The upload handler *)



(** ** These theorems at work on the example rows *)

Lemma convertRow_other_witness :
  other_row !! "Order Type" = Some "Transfer"
  /\ other_row !! "Order Date" = Some "2024-01-15 10:00:00"
  /\ includes (toLowerCase "Transfer") "buy" = false
  /\ includes (toLowerCase "Transfer") "sell" = false
  /\ exists target,
       convertRow other_row = Ok target
       /\ get_prop target "Label" = VStr "Transfer".
Proof.
  repeat (split; [reflexivity|]).
  destruct (convertRow_other other_row "Transfer" "2024-01-15 10:00:00"
              eq_refl eq_refl eq_refl eq_refl) as (target & Hok & Hlabel & _).
  exists target. split; assumption.
Defined.

Lemma convertRow_columns_witness :
  exists target,
    convertRow sample_row = Ok target
    /\ dom target = list_to_set headers.
Proof.
  destruct (convertRow_ok sample_row) as [target Hok];
    [now eexists|now eexists|].
  exists target. split; [exact Hok|].
  exact (proj1 (convertRow_columns sample_row target Hok)).
Defined.

Lemma earlier_convertRow_date_witness :
  sample_row !! "Order Type" = Some "Buy"
  /\ sample_row !! "Order Date" = Some "2024-01-15 10:00:00"
  /\ exists target,
       convertRow sample_row = Ok target
       /\ Earlier.convertRow sample_row
          = Ok (<["Date" := VStr "2024-01-15 10:00:00"]> target).
Proof.
  repeat (split; [reflexivity|]).
  exact (earlier_convertRow_date sample_row "Buy" "2024-01-15 10:00:00"
           eq_refl eq_refl).
Defined.

Lemma example_converts :
  exists targets, convertedRows [sample_row; swap_row; sell_row] = Ok targets.
Proof.
  assert (Hall : Forall has_order_type [sample_row; swap_row; sell_row])
    by (repeat constructor; eexists; reflexivity).
  rewrite (convertedRows_kept _ Hall).
  change (kept_rows [sample_row; swap_row; sell_row]) with [sample_row; sell_row].
  destruct (convertRow_ok sample_row) as [t1 H1]; [now eexists..|].
  destruct (convertRow_ok sell_row) as [t2 H2]; [now eexists..|].
  exists [t1; t2]. cbn [mapM]. now rewrite H1, H2.
Defined.

Lemma convertedRows_no_swap_label_witness :
  exists targets,
    convertedRows [sample_row; swap_row; sell_row] = Ok targets
    /\ Forall (fun target =>
                 exists label,
                   get_prop target "Label" = VStr label
                   /\ includes (toLowerCase label) "swap" = false)
              targets.
Proof.
  destruct example_converts as [targets Hok].
  exists targets. split; [exact Hok|].
  exact (convertedRows_no_swap_label _ targets Hok).
Defined.

Lemma convert_app_witness :
  exists csv tb,
    convert [sample_row] = Ok csv
    /\ convertedRows [sell_row] = Ok tb
    /\ convert ([sample_row] ++ [sell_row])
       = Ok (csv +:+ String.concat "" (map (fun t => newline +:+ row_line t) tb)).
Proof.
  destruct (convertRow_ok sample_row) as [t1 H1]; [now eexists..|].
  destruct (convertRow_ok sell_row) as [t2 H2]; [now eexists..|].
  assert (Ha : convert [sample_row] = Ok (generateKoinlyCsv [t1])).
  { unfold convert. rewrite convertedRows_single.
    change (not_swap sample_row) with (Ok (A := bool) true).
    cbn [bind]. now rewrite H1. }
  assert (Hb : convertedRows [sell_row] = Ok [t2]).
  { rewrite convertedRows_single.
    change (not_swap sell_row) with (Ok (A := bool) true).
    cbn [bind]. now rewrite H2. }
  exists (generateKoinlyCsv [t1]), [t2].
  split; [exact Ha|]. split; [exact Hb|].
  exact (convert_app [sample_row] [sell_row] _ _ Ha Hb).
Defined.

Lemma convert_without_swaps_witness :
  Forall has_order_type [sample_row; swap_row; sell_row]
  /\ convert [sample_row; swap_row; sell_row] = convert [sample_row; sell_row].
Proof.
  assert (Hall : Forall has_order_type [sample_row; swap_row; sell_row])
    by (repeat constructor; eexists; reflexivity).
  split; [exact Hall|].
  exact (proj1 (convert_without_swaps _ Hall)).
Defined.

Lemma generateKoinlyCsv_read_back_witness :
  Forall (fun row : jsobject => ~ contains_char (row_line row) "010") [∅]
  /\ map (read_record FieldStart) (lines_of (generateKoinlyCsv [∅]))
     = [headers; map (fun _ => "") headers].
Proof.
  assert (Hrows : Forall (fun row : jsobject => ~ contains_char (row_line row) "010") [∅]).
  { repeat constructor. unfold contains_char. cbn.
    intros H. repeat (destruct H as [H|H]; [discriminate|]). exact H. }
  split; [exact Hrows|].
  exact (generateKoinlyCsv_read_back [∅] Hrows).
Defined.

Lemma convertMountainTimeToUTC_well_formed_witness :
  convertMountainTimeToUTC (VStr "2024-12-31 23:59:59") = Ok "2025-01-01 06:59 UTC".
Proof.
  assert (Hv : Calendar.valid_day 2024 12 31)
    by (split; [lia|split; [lia|vm_compute; discriminate]]).
  pose proof (NormalizerFacts.convertMountainTimeToUTC_well_formed
                2024 12 31 23 59 59 ltac:(lia) Hv ltac:(lia) ltac:(lia) ltac:(lia))
    as H.
  cbv zeta in H.
  change (Calendar.add_seven_hours 2024 12 31 23) with (2025, 1, 1, 6)%Z in H.
  cbv iota beta in H.
  exact (proj1 (proj2 H)).
Defined.

(** ** The earlier mapper and the order date *)

(** X16. The earlier mapper throws exactly on a row without an order type:
    it copies the order date and never calls a method on it, so that a row
    without an order date is converted, with [undefined] as its date. *)
Theorem earlier_convertRow_throws_iff (row : SourceRow) :
  (Earlier.convertRow row = Throw TypeError <-> row !! "Order Type" = None)
  /\ (forall target,
        Earlier.convertRow row = Ok target ->
        get_prop target "Date" = row_get row "Order Date").
Proof.
  unfold Earlier.convertRow.
  destruct (row !! "Order Type") as [orderType|] eqn:Htype.
  - rewrite (row_get_Some _ _ _ Htype). cbn [on_string bind].
    destruct (includes (toLowerCase orderType) "buy");
      [|destruct (includes (toLowerCase orderType) "sell")].
    all: split; [split; intros [=]|].
    all: intros target [= <-]; reflexivity.
  - assert (Hget : row_get row "Order Type" = VUndefined)
      by (unfold row_get; now rewrite Htype).
    rewrite Hget. cbn [on_string bind].
    split; [tauto|intros target [=]].
Qed.

(** ** The Time Normalizer on any host *)

Lemma convertMountainTimeToUTC_with_model (dateStr : jsval) :
  convertMountainTimeToUTC_with new_Date dateStr = convertMountainTimeToUTC dateStr.
Proof. reflexivity. Qed.

(** C4. The Time Normalizer rejects no string, well formed or not, whatever
    the [Date] of the host reads it as: it throws nothing; where [Date] gives
    an invalid date, it answers the text made of the five [NaN]; and where
    [Date] gives a time value, also for a string that is no timestamp, it
    answers the year, month, day, hours and minutes of that time value. With
    the [Date] of the model it is [convertMountainTimeToUTC]. *)
Theorem malformed_timestamp_never_rejected (Date : string -> number) (s : string) :
  let date := Date (replace s " " "T" +:+ "-07:00") in
  (forall e, convertMountainTimeToUTC_with Date (VStr s) <> Throw e)
  /\ (date = NaN ->
      convertMountainTimeToUTC_with Date (VStr s) = Ok "NaN-NaN-NaN NaN:NaN UTC")
  /\ (forall t, date = Int t ->
      let month := (DateModel.MonthFromTime t + 1)%Z in
      let day := DateModel.DateFromTime t in
      let hours := DateModel.HourFromTime t in
      let minutes := DateModel.MinFromTime t in
      (1 <= month <= 12 /\ 1 <= day <= 31
       /\ 0 <= hours <= 23 /\ 0 <= minutes <= 59)%Z
      /\ convertMountainTimeToUTC_with Date (VStr s)
         = Ok (utc_text_plain_year (DateModel.YearFromTime t) month day hours minutes))
  /\ convertMountainTimeToUTC_with new_Date (VStr s)
     = convertMountainTimeToUTC (VStr s).
Proof.
  intros date. unfold convertMountainTimeToUTC_with. cbn [on_string bind].
  fold date. cbv zeta.
  split; [discriminate|]. split; [|split; [|reflexivity]].
  - intros ->. reflexivity.
  - intros t ->.
    destruct (NormalizerFacts.getters_in_range t) as (Hm & Hd & Hh & Hmi).
    split; [lia|].
    unfold getUTCFullYear, getUTCMonth, getUTCDate, getUTCHours, getUTCMinutes.
    cbn [date_getter number_add number_toString].
    now rewrite !Timestamps.padStart_two_digits by lia.
Qed.

(** ** The CSV Serializer on values of any kind *)

Lemma any_join_ok (xs : list AnyValue.value) (ts : list string) (sep : string) :
  Forall2 (fun x t => AnyValue.join_item x = Ok t) xs ts ->
  AnyValue.join xs sep = Ok (String.concat sep ts).
Proof.
  induction 1 as [|x t xs ts Hx Hxs IH]; [reflexivity|].
  destruct Hxs as [|x' t' xs ts Hx' Hxs].
  - exact Hx.
  - cbn [AnyValue.join String.concat] in *. rewrite Hx, IH. reflexivity.
Qed.

Lemma any_join_texts (ls : list string) (sep : string) :
  AnyValue.join (map AnyValue.Text ls) sep = Ok (String.concat sep ls).
Proof.
  apply any_join_ok. induction ls; constructor; [reflexivity|assumption].
Qed.

(** [join] throws as soon as one element has no conversion. *)
Lemma any_join_throws (xs : list AnyValue.value) (sep : string) (e : js_error) :
  Exists (fun x => AnyValue.join_item x = Throw e) xs ->
  exists e', AnyValue.join xs sep = Throw e'.
Proof.
  induction 1 as [x xs Hx|x xs Hxs IH].
  - destruct xs; cbn [AnyValue.join]; rewrite Hx; now eexists.
  - destruct xs as [|x' xs]; [inversion Hxs|].
    cbn [AnyValue.join] in *.
    destruct (AnyValue.join_item x); cbn [bind]; [|now eexists].
    destruct IH as [e' ->]. now eexists.
Qed.

Lemma any_cell_plain (row : AnyValue.object) (header : string) :
  plain_value (AnyValue.get_prop row header) ->
  exists t, value_text row header = Ok t
            /\ AnyValue.join_item (AnyValue.cell row header) = Ok (written_form t).
Proof.
  unfold value_text, AnyValue.cell.
  destruct (AnyValue.get_prop row header) as [| |[|]|text|s| |text];
    cbn [plain_value AnyValue.nullish]; intros Hplain; try tauto.
  1-4: eexists; split; reflexivity.
  - exists text. split; [reflexivity|].
    cbn [AnyValue.join_item]. now rewrite written_form_plain.
  - exists s. split; [reflexivity|].
    unfold written_form. rewrite quoted_form_code.
    now destruct (includes s "," || includes s quote_str).
Qed.


Lemma plain_row_texts (row : AnyValue.object) :
  plain_row row ->
  exists texts,
    Forall2 (fun header text => value_text row header = Ok text) headers texts
    /\ any_row_line row = Ok (String.concat "," (map written_form texts)).
Proof.
  unfold plain_row, any_row_line, AnyValue.rowValues.
  generalize headers as hs. intros hs Hplain.
  assert (H : exists texts,
             Forall2 (fun header text => value_text row header = Ok text) hs texts
             /\ Forall2 (fun x t => AnyValue.join_item x = Ok t)
                  (map (AnyValue.cell row) hs) (map written_form texts)).
  { induction hs as [|h hs IH]; [exists []; split; constructor|].
    destruct IH as (texts & Htexts & Hcells);
      [intros header Hin; apply Hplain; now right|].
    destruct (any_cell_plain row h) as (t & Ht & Hcell);
      [apply Hplain; now left|].
    exists (t :: texts). split; constructor; assumption. }
  destruct H as (texts & Htexts & Hcells).
  exists texts. split; [assumption|]. now apply any_join_ok.
Qed.

Lemma plain_row_read_back (row : AnyValue.object) :
  plain_row row ->
  exists line texts,
    any_row_line row = Ok line
    /\ Forall2 (fun header text => value_text row header = Ok text) headers texts
    /\ read_record FieldStart line = texts.
Proof.
  intros Hplain. destruct (plain_row_texts row Hplain) as (texts & Htexts & Hline).
  exists (String.concat "," (map written_form texts)), texts.
  split; [assumption|]. split; [assumption|].
  destruct texts as [|t ts]; [inversion Htexts|].
  apply read_written_fields.
Qed.

Lemma forEach_push_ok (rows : list AnyValue.object) (lines : list string)
    (csvRows : list AnyValue.value) :
  Forall2 (fun row line => any_row_line row = Ok line) rows lines ->
  AnyValue.forEach_push rows csvRows = Ok (csvRows ++ map AnyValue.Text lines).
Proof.
  intros H. revert csvRows.
  induction H as [|row line rows lines Hrow Hrows IH]; intros csvRows.
  - cbn. now rewrite app_nil_r.
  - cbn [AnyValue.forEach_push map]. unfold any_row_line in Hrow.
    rewrite Hrow. cbn [bind]. rewrite IH, <- app_assoc. reflexivity.
Qed.

Lemma any_generateKoinlyCsv_ok (rows : list AnyValue.object) (lines : list string) :
  Forall2 (fun row line => any_row_line row = Ok line) rows lines ->
  AnyValue.generateKoinlyCsv rows
  = Ok (String.concat newline (header_line :: lines)).
Proof.
  intros H. unfold AnyValue.generateKoinlyCsv.
  rewrite any_join_texts. cbn [bind].
  rewrite (forEach_push_ok rows lines _ H). cbn [bind].
  change ([AnyValue.Text (String.concat "," headers)] ++ map AnyValue.Text lines)
    with (map AnyValue.Text (String.concat "," headers :: lines)).
  rewrite any_join_texts. reflexivity.
Qed.

(** The serializer of the conversion core is this one on its values. *)
Lemma any_cell_of_jsval (row : jsobject) (header : string) :
  AnyValue.join_item (AnyValue.cell (AnyValue.of_jsobject row) header)
  = Ok (join_item (cell row header)).
Proof.
  unfold AnyValue.cell, cell, AnyValue.get_prop, get_prop, AnyValue.of_jsobject.
  rewrite lookup_fmap.
  destruct (row !! header) as [[| |[|]|[|z]|s]|]; try reflexivity.
  cbn [fmap option_fmap option_map AnyValue.of_jsval AnyValue.nullish nullish].
  now destruct (includes s "," || includes s quote_str).
Qed.

Lemma any_row_line_of_jsobject (row : jsobject) :
  any_row_line (AnyValue.of_jsobject row) = Ok (row_line row).
Proof.
  unfold any_row_line, row_line, AnyValue.rowValues, rowValues.
  rewrite join_concat. apply any_join_ok.
  generalize headers as hs. induction hs as [|h hs IH]; constructor;
    [apply any_cell_of_jsval|exact IH].
Qed.

Lemma generateKoinlyCsv_of_jsobject (rows : list jsobject) :
  AnyValue.generateKoinlyCsv (map AnyValue.of_jsobject rows)
  = Ok (generateKoinlyCsv rows).
Proof.
  rewrite (any_generateKoinlyCsv_ok _ (map row_line rows)).
  - now rewrite generateKoinlyCsv_lines.
  - induction rows; constructor; [apply any_row_line_of_jsobject|assumption].
Qed.



(** X11. On a row whose twelve columns hold plain values, the quoting loses
    nothing: a reader of CSV records gets the twelve field texts back from
    the line of the row; so two such rows with the same line have the same
    field texts. *)
Theorem plain_row_line_read_back (row other : AnyValue.object) :
  plain_row row ->
  (exists line texts,
      any_row_line row = Ok line
      /\ Forall2 (fun header text => value_text row header = Ok text) headers texts
      /\ read_record FieldStart line = texts)
  /\ (plain_row other ->
      any_row_line row = any_row_line other ->
      Forall (fun header => value_text row header = value_text other header) headers).
Proof.
  intros Hrow. split; [now apply plain_row_read_back|].
  intros Hother Hsame.
  destruct (plain_row_read_back row Hrow) as (line & texts & Hline & Htexts & Hread).
  destruct (plain_row_read_back other Hother)
    as (line' & texts' & Hline' & Htexts' & Hread').
  assert (Hlines : line = line') by congruence.
  assert (Hsame_texts : texts = texts') by congruence.
  rewrite <- Hsame_texts in Htexts'.
  revert Htexts Htexts'. generalize texts as ts. generalize headers as hs.
  clear. induction hs as [|h hs IH]; intros ts H1 H2; [constructor|].
  destruct ts as [|t ts]; [inversion H1|].
  apply Forall2_cons_1 in H1 as [Ht Hts].
  apply Forall2_cons_1 in H2 as [Ht' Hts'].
  constructor; [congruence|]. now apply (IH ts).
Qed.

(** ** The revised theorems at work *)

Ltac plain_row_cases :=
  let header := fresh "header" in
  let Hin := fresh "Hin" in
  intros header Hin; cbn [In headers] in Hin;
  repeat (destruct Hin as [<-|Hin]); try contradiction;
  vm_compute; intuition discriminate.

Example mixed_document :
  AnyValue.generateKoinlyCsv [mixed_row; ∅]
  = Ok (header_line +:+ newline
        +:+ "2024-01-15 17:00 UTC,1e+21,,,,,,,,true," +:+ tom_bones_quoted +:+ ","
        +:+ newline +:+ ",,,,,,,,,,,").
Proof. reflexivity. Qed.

Example core_document_agrees :
  AnyValue.generateKoinlyCsv [AnyValue.of_jsobject ∅]
  = Ok (generateKoinlyCsv [∅]).
Proof. apply (generateKoinlyCsv_of_jsobject [∅]). Qed.

Lemma malformed_timestamp_never_rejected_witness :
  convertMountainTimeToUTC_with new_Date (VStr "not a date")
  = Ok "NaN-NaN-NaN NaN:NaN UTC"
  /\ convertMountainTimeToUTC_with letter_month_Date (VStr "Jan 15 2024 10:00:00")
     = Ok "2024-01-15 17:00 UTC".
Proof.
  split.
  - exact (proj1 (proj2 (malformed_timestamp_never_rejected new_Date "not a date"))
             eq_refl).
  - destruct (malformed_timestamp_never_rejected letter_month_Date
                "Jan 15 2024 10:00:00") as (_ & _ & H & _).
    exact (proj2 (H 1705338000000%Z eq_refl)).
Defined.


Lemma plain_row_line_read_back_witness :
  plain_row mixed_row
  /\ exists line texts,
       any_row_line mixed_row = Ok line
       /\ Forall2 (fun header text => value_text mixed_row header = Ok text)
            headers texts
       /\ read_record FieldStart line = texts.
Proof.
  assert (H : plain_row mixed_row) by plain_row_cases.
  split; [exact H|].
  exact (proj1 (plain_row_line_read_back mixed_row ∅ H)).
Defined.
